(** * react-lazyload: the visibility-tracking coordinator of [src/index.js]

    A shallow embedding of the module state ([listeners], [pending],
    [finalLazyLoadHandler]), of the geometric visibility tests, of the check
    pass and of the two lifecycle hooks of the [LazyLoad] component, followed
    by the properties the specification states about them.

    Conventions of the embedding.
    - Pixel quantities (scroll offsets, rectangle edges, heights, offsets) are
      integers of [Z]; a JavaScript [undefined] operand, which turns the
      arithmetic into [NaN] and every comparison into [false], is the [None]
      of an [option Z].
    - A component instance is named by a number ([cid]); what the code reads
      from it without changing it (its props, the DOM node [findDOMNode]
      resolves) comes from a [World], the snapshot of the page at the moment a
      callback runs. What the code writes (the module variables, the [visible]
      field of each instance, the attributes and listeners of containers and
      of the window, the [forceUpdate] calls) is the [State]. *)

From Stdlib Require Import ZArith Lia.
From stdpp Require Import base tactics list gmap strings.

Local Open Scope Z_scope.

(** ** Values read from the page *)

(** A prop declared [PropTypes.oneOfType([number, bool])] and left without a
    default: [throttle] and [debounce]. *)
Inductive JsValue :=
| JsUndefined
| JsBool (b : bool)
| JsNumber (n : Z).

(** [x !== undefined] *)
Definition isDefined (v : JsValue) : bool :=
  match v with
  | JsUndefined => false
  | _ => true
  end.

(** [typeof x === 'number' ? x : dflt] *)
Definition numberOr (v : JsValue) (dflt : Z) : Z :=
  match v with
  | JsNumber n => n
  | _ => dflt
  end.

(** The [offset] prop: a number, or an array of numbers. *)
Inductive Offset :=
| OffsetNumber (n : Z)
| OffsetArray (l : list Z).

Record Props := {
  once : bool;
  offset : Offset;
  overflow : bool;
  resize : bool;
  scroll : bool;
  throttle : JsValue;
  debounce : JsValue
}.

(** [LazyLoad.defaultProps] *)
Definition defaultProps : Props :=
  {| once := false; offset := OffsetNumber 0; overflow := false;
     resize := false; scroll := true;
     throttle := JsUndefined; debounce := JsUndefined |}.

(** A scrolling ancestor, as [checkOverflowVisible] and the lifecycle hooks
    see it: its identity and the two geometry fields read from it. *)
Record Container := {
  containerId : nat;
  containerScrollTop : Z;
  containerOffsetHeight : Z
}.

(** What [scrollParent(node)] answers: the document, or a scrolling
    ancestor. *)
Inductive ScrollParent :=
| ParentDocument
| ParentElement (p : Container).

(** The DOM node of a component: [getBoundingClientRect()] ([top],
    [height]), [offsetTop], and the answer of [scrollParent] for it. *)
Record Node := {
  rectTop : Z;
  rectHeight : Z;
  offsetTop : Z;
  nodeScrollParent : ScrollParent
}.

(** The globals [checkNormalVisible] reads from [window] and [document]. *)
Record Window := {
  pageXOffset : option Z;
  pageYOffset : Z;
  compatMode : option string;
  documentElementScrollTop : Z;
  bodyScrollTop : Z;
  innerHeight : option Z;
  documentElementClientHeight : Z
}.

Definition cid := nat.

Record World := {
  propsOf : cid -> Props;
  findDOMNode : cid -> option Node;
  window : Window
}.

(** Modelled from the spec: [utils/scrollParent] is not part of the sources.
    The ViewportResolver returns the first scrolling ancestor of the node and
    otherwise the document, which is also its answer for a node without a
    parent chain; for a rendered node the answer is a field of the node. *)
Definition scrollParent (node : option Node) : ScrollParent :=
  match node with
  | Some n => nodeScrollParent n
  | None => ParentDocument
  end.

(** ** The geometric tests *)

(** [Array.isArray(offset) ? offset : [offset, offset]] *)
Definition offsets (o : Offset) : list Z :=
  match o with
  | OffsetArray l => l
  | OffsetNumber n => [n; n]
  end.

(** [elementTop >= (scrollTop - offsets[0])]: false when [offsets[0]] is
    [undefined]. *)
Definition topInRange (elementTop scrollTop : Z) (off0 : option Z) : bool :=
  match off0 with
  | Some a => scrollTop - a <=? elementTop
  | None => false
  end.

(** [(elementBottom - offsets[1]) <= bottom]: false when [offsets[1]] is
    [undefined]. *)
Definition bottomInRange (elementBottom bottom : Z) (off1 : option Z) : bool :=
  match off1 with
  | Some b => elementBottom - b <=? bottom
  | None => false
  end.

(** [checkOverflowVisible(component, parent)]. The component enters through
    what is read from it: its props and its DOM node. *)
Definition checkOverflowVisible (p : Props) (node : Node) (parent : Container)
  : bool :=
  let scrollTop := containerScrollTop parent in
  let parentBottom := scrollTop + containerOffsetHeight parent in
  let elementHeight := rectHeight node in
  let offs := offsets (offset p) in
  let elementTop := offsetTop node in
  let elementBottom := elementTop + elementHeight in
  topInRange elementTop scrollTop (offs !! 0%nat) &&
  bottomInRange elementBottom parentBottom (offs !! 1%nat).

Definition supportPageOffset (w : Window) : bool :=
  match pageXOffset w with
  | Some _ => true
  | None => false
  end.

(** [(document.compatMode || '') === 'CSS1Compat'] *)
Definition isCSS1Compat (w : Window) : bool :=
  String.eqb (default EmptyString (compatMode w)) "CSS1Compat".

Definition windowScrollTop (w : Window) : Z :=
  if supportPageOffset w then pageYOffset w
  else if isCSS1Compat w then documentElementScrollTop w
  else bodyScrollTop w.

(** [window.innerHeight || document.documentElement.clientHeight] *)
Definition windowInnerHeight (w : Window) : Z :=
  match innerHeight w with
  | Some h => if h =? 0 then documentElementClientHeight w else h
  | None => documentElementClientHeight w
  end.

(** [checkNormalVisible(component)] *)
Definition checkNormalVisible (w : Window) (p : Props) (node : Node) : bool :=
  let top := rectTop node in
  let elementHeight := rectHeight node in
  let scrollTop := windowScrollTop w in
  let elementTop := top + scrollTop in
  let elementBottom := elementTop + elementHeight in
  let documentBottom := scrollTop + windowInnerHeight w in
  let offs := offsets (offset p) in
  topInRange elementTop scrollTop (offs !! 0%nat) &&
  bottomInRange elementBottom documentBottom (offs !! 1%nat).

(** ** The state the module writes *)

(** The shared rate-limited handler: [debounce(lazyLoadHandler, ms)] or
    [throttle(lazyLoadHandler, ms)]. The two wrappers come from [utils/] and
    are kept as constructors: which one is built, and with which interval, is
    decided in [componentDidMount]. *)
Inductive RateLimiter :=
| Debounce (ms : Z)
| Throttle (ms : Z).

(** The events of the window the handler is attached to. *)
Record WindowListeners := {
  onScroll : bool;
  onResize : bool
}.

Inductive EventName := EvScroll | EvResize.

(** Modelled from the spec: [utils/event] is not part of the sources. [on]
    is the EventBinder attaching the shared handler to an event of the
    window, [off] the one detaching it; one handler exists, so a flag per
    event records whether it is attached. *)
Definition on (ev : EventName) (wl : WindowListeners) : WindowListeners :=
  match ev with
  | EvScroll => {| onScroll := true; onResize := onResize wl |}
  | EvResize => {| onScroll := onScroll wl; onResize := true |}
  end.

(** Modelled from the spec: see [on]. *)
Definition off (ev : EventName) (wl : WindowListeners) : WindowListeners :=
  match ev with
  | EvScroll => {| onScroll := false; onResize := onResize wl |}
  | EvResize => {| onScroll := onScroll wl; onResize := false |}
  end.

Record State := {
  listeners : list cid;                       (* const listeners = [] *)
  pending : list cid;                         (* let pending = [] *)
  finalLazyLoadHandler : option RateLimiter;  (* null until the first mount *)
  visible : cid -> bool;                      (* component.visible *)
  forceUpdates : list cid;                    (* calls of component.forceUpdate(), oldest first *)
  windowListeners : WindowListeners;          (* handler attached to window *)
  scrollBound : gset nat;                     (* containers with the handler on 'scroll' *)
  listenFlag : gset nat                       (* containers carrying LISTEN_FLAG *)
}.

(** The module as loaded: empty registry, no handler, every instance built by
    the constructor with [visible = false], nothing attached. *)
Definition initialState : State :=
  {| listeners := []; pending := []; finalLazyLoadHandler := None;
     visible := fun _ => false; forceUpdates := [];
     windowListeners := {| onScroll := false; onResize := false |};
     scrollBound := ∅; listenFlag := ∅ |}.

Definition setListeners (l : list cid) (s : State) : State :=
  {| listeners := l; pending := pending s;
     finalLazyLoadHandler := finalLazyLoadHandler s; visible := visible s;
     forceUpdates := forceUpdates s; windowListeners := windowListeners s;
     scrollBound := scrollBound s; listenFlag := listenFlag s |}.

Definition setPending (l : list cid) (s : State) : State :=
  {| listeners := listeners s; pending := l;
     finalLazyLoadHandler := finalLazyLoadHandler s; visible := visible s;
     forceUpdates := forceUpdates s; windowListeners := windowListeners s;
     scrollBound := scrollBound s; listenFlag := listenFlag s |}.

Definition setFinalLazyLoadHandler (h : option RateLimiter) (s : State) : State :=
  {| listeners := listeners s; pending := pending s;
     finalLazyLoadHandler := h; visible := visible s;
     forceUpdates := forceUpdates s; windowListeners := windowListeners s;
     scrollBound := scrollBound s; listenFlag := listenFlag s |}.

(** [component.visible = b] *)
Definition setVisible (component : cid) (b : bool) (s : State) : State :=
  {| listeners := listeners s; pending := pending s;
     finalLazyLoadHandler := finalLazyLoadHandler s;
     visible := fun x => if bool_decide (x = component) then b else visible s x;
     forceUpdates := forceUpdates s; windowListeners := windowListeners s;
     scrollBound := scrollBound s; listenFlag := listenFlag s |}.

(** [component.forceUpdate()], recorded as the redraw signal it is. *)
Definition forceUpdate (component : cid) (s : State) : State :=
  {| listeners := listeners s; pending := pending s;
     finalLazyLoadHandler := finalLazyLoadHandler s; visible := visible s;
     forceUpdates := forceUpdates s ++ [component];
     windowListeners := windowListeners s;
     scrollBound := scrollBound s; listenFlag := listenFlag s |}.

Definition setWindowListeners (wl : WindowListeners) (s : State) : State :=
  {| listeners := listeners s; pending := pending s;
     finalLazyLoadHandler := finalLazyLoadHandler s; visible := visible s;
     forceUpdates := forceUpdates s; windowListeners := wl;
     scrollBound := scrollBound s; listenFlag := listenFlag s |}.

Definition setScrollBound (b : gset nat) (s : State) : State :=
  {| listeners := listeners s; pending := pending s;
     finalLazyLoadHandler := finalLazyLoadHandler s; visible := visible s;
     forceUpdates := forceUpdates s; windowListeners := windowListeners s;
     scrollBound := b; listenFlag := listenFlag s |}.

Definition setListenFlag (f : gset nat) (s : State) : State :=
  {| listeners := listeners s; pending := pending s;
     finalLazyLoadHandler := finalLazyLoadHandler s; visible := visible s;
     forceUpdates := forceUpdates s; windowListeners := windowListeners s;
     scrollBound := scrollBound s; listenFlag := f |}.

(** ** The check pass *)

(** The [visible] constant of [checkVisible]:
    [parent = scrollParent(node)], [isOverflow = parent !== document],
    [isOverflow ? checkOverflowVisible(component, parent)
                : checkNormalVisible(component)]. *)
Definition visibleNow (w : World) (component : cid) (node : Node) : bool :=
  match scrollParent (Some node) with
  | ParentElement parent =>
      checkOverflowVisible (propsOf w component) node parent
  | ParentDocument =>
      checkNormalVisible (window w) (propsOf w component) node
  end.

(** [checkVisible(component)] *)
Definition checkVisible (w : World) (component : cid) (s : State) : State :=
  match findDOMNode w component with
  | None => s
  | Some node =>
    if visibleNow w component node then
      if negb (visible s component) then
        let s1 := if once (propsOf w component)
                  then setPending (pending s ++ [component]) s
                  else s in
        forceUpdate component (setVisible component true s1)
      else s
    else setVisible component false s
  end.

(** [array.indexOf(x)]: the first position holding [x]; [None] for [-1]. *)
Fixpoint indexOf (x : cid) (l : list cid) : option nat :=
  match l with
  | [] => None
  | y :: l' => if bool_decide (y = x) then Some 0%nat
               else S <$> indexOf x l'
  end.

(** [const index = array.indexOf(x); if (index !== -1) array.splice(index, 1)] *)
Definition removeFirst (x : cid) (l : list cid) : list cid :=
  match indexOf x l with
  | Some index => delete index l
  | None => l
  end.

(** [purgePending()] *)
Definition purgePending (s : State) : State :=
  let ls := foldl (fun ls component => removeFirst component ls)
                  (listeners s) (pending s) in
  setPending [] (setListeners ls s).

(** The loop of [lazyLoadHandler], from index [i] on:
    [for (; i < listeners.length; ++i) checkVisible(listeners[i])].
    [fuel] bounds the number of iterations; [checkFrom_foldl] shows that
    [length listeners] of them reach the end of the registry. *)
Fixpoint checkFrom (w : World) (fuel i : nat) (s : State) : State :=
  match fuel with
  | O => s
  | S fuel' =>
    match listeners s !! i with
    | Some listener => checkFrom w fuel' (S i) (checkVisible w listener s)
    | None => s
    end
  end.

(** [lazyLoadHandler()]: one check pass. *)
Definition lazyLoadHandler (w : World) (s : State) : State :=
  purgePending (checkFrom w (length (listeners s)) 0 s).

(** ** The lifecycle hooks *)

(** How a hook ends: normally, or by a [TypeError] raised part-way, with the
    state as the statements before it left it. *)
Inductive Completion :=
| Normal (s : State)
| Threw (s : State).

Definition stateOf (c : Completion) : State :=
  match c with
  | Normal s => s
  | Threw s => s
  end.

(** The first statement of [componentDidMount]: build the shared handler
    when there is none. *)
Definition createHandler (p : Props) (s : State) : State :=
  match finalLazyLoadHandler s with
  | Some _ => s
  | None =>
    if isDefined (debounce p)
    then setFinalLazyLoadHandler (Some (Debounce (numberOr (throttle p) 300))) s
    else setFinalLazyLoadHandler (Some (Throttle (numberOr (debounce p) 300))) s
  end.

(** [componentDidMount()]. With [overflow] set and the document as scroll
    parent, [parent.getAttribute] is not a function ([document] is no
    element) and the call throws. *)
Definition componentDidMount (w : World) (this : cid) (s : State) : Completion :=
  let p := propsOf w this in
  let s1 := createHandler p s in
  let bound :=
    if overflow p then
      match scrollParent (findDOMNode w this) with
      | ParentDocument => Threw s1
      | ParentElement parent =>
        let k := containerId parent in
        if bool_decide (k ∈ listenFlag s1) then Normal s1
        else Normal (setListenFlag ({[k]} ∪ listenFlag s1)
                       (setScrollBound ({[k]} ∪ scrollBound s1) s1))
      end
    else if bool_decide (length (listeners s1) = 0%nat) then
      let wl1 := if scroll p then on EvScroll (windowListeners s1)
                 else windowListeners s1 in
      let wl2 := if resize p then on EvResize wl1 else wl1 in
      Normal (setWindowListeners wl2 s1)
    else Normal s1 in
  match bound with
  | Threw s2 => Threw s2
  | Normal s2 =>
    Normal (checkVisible w this (setListeners (listeners s2 ++ [this]) s2))
  end.

(** [componentWillUnmount()]. With [overflow] set and the document as scroll
    parent, [parent.removeAttribute] is not a function and the call throws
    before the registry is touched. *)
Definition componentWillUnmount (w : World) (this : cid) (s : State) : Completion :=
  let p := propsOf w this in
  let unbound :=
    if overflow p then
      match scrollParent (findDOMNode w this) with
      | ParentDocument => Threw s
      | ParentElement parent =>
        let k := containerId parent in
        Normal (setListenFlag (listenFlag s ∖ {[k]})
                  (setScrollBound (scrollBound s ∖ {[k]}) s))
      end
    else Normal s in
  match unbound with
  | Threw s1 => Threw s1
  | Normal s1 =>
    let s2 := setListeners (removeFirst this (listeners s1)) s1 in
    if bool_decide (length (listeners s2) = 0%nat) then
      Normal (setWindowListeners
                (off EvScroll (off EvResize (windowListeners s2))) s2)
    else Normal s2
  end.

(** ** Runs of the coordinator *)

(** What the host does to the module: it mounts an instance, unmounts one, or
    lets the rate limiter call [lazyLoadHandler]. Each event comes with the
    page as it is at that moment. *)
Inductive Event :=
| Mount (c : cid)
| Unmount (c : cid)
| Tick.

Definition step (s : State) (we : World * Event) : State :=
  match we.2 with
  | Mount c => stateOf (componentDidMount we.1 c s)
  | Unmount c => stateOf (componentWillUnmount we.1 c s)
  | Tick => lazyLoadHandler we.1 s
  end.

Definition run (tr : list (World * Event)) (s : State) : State :=
  foldl step s tr.

(** The instances a run mounts, in order. *)
Definition mounts (tr : list (World * Event)) : list cid :=
  omap (fun we => match we.2 with Mount c => Some c | _ => None end) tr.

(** ** Fixtures

    The pages and instances the concrete statements below are evaluated on. *)

(** A standards-mode window scrolled to [scrollTop], [viewportHeight] high. *)
Definition windowAt (scrollTop viewportHeight : Z) : Window :=
  {| pageXOffset := Some 0; pageYOffset := scrollTop;
     compatMode := Some "CSS1Compat";
     documentElementScrollTop := scrollTop; bodyScrollTop := 0;
     innerHeight := Some viewportHeight;
     documentElementClientHeight := viewportHeight |}.

(** A node [height] high whose top edge is at [documentTop] in the document,
    seen while the window is scrolled to [scrollTop], with the document as
    scroll parent. *)
Definition nodeAt (documentTop height scrollTop : Z) : Node :=
  {| rectTop := documentTop - scrollTop; rectHeight := height;
     offsetTop := documentTop; nodeScrollParent := ParentDocument |}.

(** A scrolling box, 300 high, not scrolled. *)
Definition box (k : nat) : Container :=
  {| containerId := k; containerScrollTop := 0; containerOffsetHeight := 300 |}.

(** A node inside the scrolling box [k], [offsetTop] below the top of the
    box, 50 high, far down the page. *)
Definition nodeInBox (k : nat) (offsetTop : Z) : Node :=
  {| rectTop := 5000; rectHeight := 50; offsetTop := offsetTop;
     nodeScrollParent := ParentElement (box k) |}.

(** A page where every instance has the props [p] and the node [node]. *)
Definition uniformWorld (p : Props) (node : Node) (win : Window) : World :=
  {| propsOf := fun _ => p; findDOMNode := fun _ => Some node; window := win |}.

Definition withOnce (p : Props) : Props :=
  {| once := true; offset := offset p; overflow := overflow p;
     resize := resize p; scroll := scroll p;
     throttle := throttle p; debounce := debounce p |}.

Definition withOverflow (p : Props) : Props :=
  {| once := once p; offset := offset p; overflow := true;
     resize := resize p; scroll := scroll p;
     throttle := throttle p; debounce := debounce p |}.

Definition withThrottle (v : JsValue) (p : Props) : Props :=
  {| once := once p; offset := offset p; overflow := overflow p;
     resize := resize p; scroll := scroll p;
     throttle := v; debounce := debounce p |}.

Definition withDebounce (v : JsValue) (p : Props) : Props :=
  {| once := once p; offset := offset p; overflow := overflow p;
     resize := resize p; scroll := scroll p;
     throttle := throttle p; debounce := v |}.

(** The selection rule of the rate limiter as the specification words it:
    Debounce with the element's debounce interval when a debounce preference
    is given, Throttle with its throttle interval otherwise, 300 for a value
    that is not a number. Kept apart from [createHandler], which is the
    code. *)
Definition selectRateLimiterSpec (p : Props) : RateLimiter :=
  if isDefined (debounce p)
  then Debounce (numberOr (debounce p) 300)
  else Throttle (numberOr (throttle p) 300).

Definition withOffset (o : Offset) (p : Props) : Props :=
  {| once := once p; offset := o; overflow := overflow p;
     resize := resize p; scroll := scroll p;
     throttle := throttle p; debounce := debounce p |}.

Definition noWindowListeners : WindowListeners :=
  {| onScroll := false; onResize := false |}.

(** A page with one document-mode instance at document top 500, 50 high,
    under a viewport 400 high scrolled to [scrollTop]. *)
Definition pageAt (p : Props) (scrollTop : Z) : World :=
  uniformWorld p (nodeAt 500 50 scrollTop) (windowAt scrollTop 400).

(** A page whose instances all sit in the scrolling box 7, [overflow] set. *)
Definition boxPage : World :=
  uniformWorld (withOverflow defaultProps) (nodeInBox 7 10) (windowAt 0 400).

(** The number of redraw signals sent to [c] so far. A signal is sent in the
    one branch of [checkVisible] that writes [visible = true] over a false
    flag, so this counts the Hidden-to-Visible transitions of [c]. *)
Definition redraws (c : cid) (s : State) : nat :=
  length (filter (fun x => x = c) (forceUpdates s)).

(** The invariant behind the once-semantics of an element [c], between two
    events of a run; [M] lists the instances mounted so far. *)
Record OnceInv (c : cid) (M : list cid) (s : State) : Prop := {
  inv_NoDup : NoDup (listeners s);
  inv_registered : forall x, x ∈ listeners s -> x ∈ M;
  inv_mounted : (0 < redraws c s)%nat -> c ∈ M;
  inv_once : (redraws c s <= 1)%nat;
  inv_shown : (0 < redraws c s)%nat -> c ∈ listeners s ->
              c ∈ pending s /\ visible s c = true
}.

(** A run with one [once] element: it mounts hidden, a pass finds it
    visible, and two more passes follow, the first with the element scrolled
    out of view again. *)
Definition onceRun : list (World * Event) :=
  [ (pageAt (withOnce defaultProps) 0, Mount 0%nat);
    (pageAt (withOnce defaultProps) 200, Tick);
    (pageAt (withOnce defaultProps) 0, Tick);
    (pageAt (withOnce defaultProps) 200, Tick) ].

(** A scrolling box, 300 high, scrolled down by 50. *)
Definition scrolledBox (k : nat) : Container :=
  {| containerId := k; containerScrollTop := 50; containerOffsetHeight := 300 |}.

(** Whether a check of [c] on the page [w] would send a redraw signal from
    the state [s]: the node is rendered, the test holds and the stored flag
    is false. *)
Definition becomesVisible (w : World) (s : State) (c : cid) : bool :=
  match findDOMNode w c with
  | Some node => visibleNow w c node && negb (visible s c)
  | None => false
  end.

(** Whether a pass on the page [w] from the state [s] keeps [c] in the
    registry: [c] is not already queued for removal, and it is not a [once]
    element that the pass finds newly visible. *)
Definition staysRegistered (w : World) (s : State) (c : cid) : bool :=
  negb (bool_decide (c ∈ pending s)) &&
  negb (once (propsOf w c) && becomesVisible w s c).

(** A page with two document-mode instances, 0 at document top 500 and 1 at
    document top 900, both 50 high, under a viewport 400 high scrolled to
    [scrollTop]; no other instance is rendered. *)
Definition twoPage (p : Props) (scrollTop : Z) : World :=
  {| propsOf := fun _ => p;
     findDOMNode := fun c =>
       match c with
       | O => Some (nodeAt 500 50 scrollTop)
       | S O => Some (nodeAt 900 50 scrollTop)
       | _ => None
       end;
     window := windowAt scrollTop 400 |}.

(** The two instances of [twoPage] mounted with the page at the top. *)
Definition twoMounted (p : Props) : State :=
  run [(twoPage p 0, Mount 0%nat); (twoPage p 0, Mount 1%nat)] initialState.

(** ** The geometric tests, as inequalities *)

Lemma topInRange_true elementTop scrollTop off0 :
  topInRange elementTop scrollTop off0 = true <->
  exists a, off0 = Some a /\ elementTop >= scrollTop - a.
Proof.
  destruct off0 as [a|]; simpl.
  - rewrite Z.leb_le. split.
    + intros H. exists a. split; [reflexivity | lia].
    + intros (a' & Ha & H). injection Ha as ->. lia.
  - split; [discriminate | intros (a & Ha & _); discriminate].
Qed.

Lemma bottomInRange_true elementBottom bottom off1 :
  bottomInRange elementBottom bottom off1 = true <->
  exists b, off1 = Some b /\ elementBottom - b <= bottom.
Proof.
  destruct off1 as [b|]; simpl.
  - rewrite Z.leb_le. split.
    + intros H. exists b. split; [reflexivity | lia].
    + intros (b' & Hb & H). injection Hb as ->. lia.
  - split; [discriminate | intros (b & Hb & _); discriminate].
Qed.

Lemma checkNormalVisible_true w p node :
  checkNormalVisible w p node = true <->
  exists a b,
    offsets (offset p) !! 0%nat = Some a /\
    offsets (offset p) !! 1%nat = Some b /\
    rectTop node + windowScrollTop w >= windowScrollTop w - a /\
    rectTop node + windowScrollTop w + rectHeight node - b
      <= windowScrollTop w + windowInnerHeight w.
Proof.
  unfold checkNormalVisible. cbv zeta.
  rewrite andb_true_iff, topInRange_true, bottomInRange_true.
  split.
  - intros [(a & Ha & H1) (b & Hb & H2)]. exists a, b. auto.
  - intros (a & b & Ha & Hb & H1 & H2). split; eauto.
Qed.

Lemma checkOverflowVisible_true p node parent :
  checkOverflowVisible p node parent = true <->
  exists a b,
    offsets (offset p) !! 0%nat = Some a /\
    offsets (offset p) !! 1%nat = Some b /\
    offsetTop node >= containerScrollTop parent - a /\
    offsetTop node + rectHeight node - b
      <= containerScrollTop parent + containerOffsetHeight parent.
Proof.
  unfold checkOverflowVisible. cbv zeta.
  rewrite andb_true_iff, topInRange_true, bottomInRange_true.
  split.
  - intros [(a & Ha & H1) (b & Hb & H2)]. exists a, b. auto.
  - intros (a & b & Ha & Hb & H1 & H2). split; eauto.
Qed.

(** C2. In document mode the test is true exactly when
    [elementTop >= scrollTop - offsetLeading] and
    [elementBottom - offsetTrailing <= scrollTop + viewportHeight], with
    [elementTop = boundingRect.top + scrollTop] and
    [elementBottom = elementTop + height]. In particular an element at
    document top 500, 50 high, with symmetric offset 0 under a viewport 400
    high is not visible at scroll position 0 and is visible at 200. *)
Theorem checkNormalVisible_document_inequality
    (w : Window) (p : Props) (node : Node) (offsetLeading offsetTrailing : Z) :
  offsets (offset p) !! 0%nat = Some offsetLeading ->
  offsets (offset p) !! 1%nat = Some offsetTrailing ->
  let scrollTop := windowScrollTop w in
  let viewportHeight := windowInnerHeight w in
  let elementTop := rectTop node + scrollTop in
  let elementBottom := elementTop + rectHeight node in
  (checkNormalVisible w p node = true <->
     elementTop >= scrollTop - offsetLeading /\
     elementBottom - offsetTrailing <= scrollTop + viewportHeight) /\
  (offset p = OffsetNumber 0 -> elementTop = 500 -> rectHeight node = 50 ->
   viewportHeight = 400 ->
     (scrollTop = 0 -> checkNormalVisible w p node = false) /\
     (scrollTop = 200 -> checkNormalVisible w p node = true)).
Proof.
  intros Ha Hb scrollTop viewportHeight elementTop elementBottom.
  assert (Hiff : checkNormalVisible w p node = true <->
     elementTop >= scrollTop - offsetLeading /\
     elementBottom - offsetTrailing <= scrollTop + viewportHeight).
  { rewrite checkNormalVisible_true. split.
    - intros (a & b & Ha' & Hb' & H1 & H2).
      rewrite Ha in Ha'. rewrite Hb in Hb'.
      injection Ha' as <-. injection Hb' as <-. auto.
    - intros [H1 H2]. exists offsetLeading, offsetTrailing. auto. }
  split; [exact Hiff |].
  intros Hoff Htop Hh Hvh. rewrite Hoff in Ha, Hb. simpl in Ha, Hb.
  injection Ha as <-. injection Hb as <-.
  subst elementBottom. split; intros Hs.
  - apply not_true_is_false. rewrite Hiff. lia.
  - apply Hiff. lia.
Qed.

Lemma checkNormalVisible_document_inequality_witness :
  offsets (offset defaultProps) !! 0%nat = Some 0 /\
  offsets (offset defaultProps) !! 1%nat = Some 0 /\
  checkNormalVisible (windowAt 0 400) defaultProps (nodeAt 500 50 0) = false /\
  checkNormalVisible (windowAt 200 400) defaultProps (nodeAt 500 50 200) = true.
Proof.
  split; [reflexivity |]. split; [reflexivity |]. split.
  - apply (checkNormalVisible_document_inequality
             (windowAt 0 400) defaultProps (nodeAt 500 50 0) 0 0);
      reflexivity.
  - apply (checkNormalVisible_document_inequality
             (windowAt 200 400) defaultProps (nodeAt 500 50 200) 0 0);
      reflexivity.
Defined.

(** C8. With the geometry fixed, both tests are monotone in each offset
    component: visible with offsets [(a, b)] stays visible with [(a', b')]
    when [a <= a'] and [b <= b']. *)
Theorem visibility_monotone_in_offsets
    (w : Window) (node : Node) (parent : Container) (p p' : Props)
    (a b a' b' : Z) :
  offsets (offset p) !! 0%nat = Some a ->
  offsets (offset p) !! 1%nat = Some b ->
  offsets (offset p') !! 0%nat = Some a' ->
  offsets (offset p') !! 1%nat = Some b' ->
  a <= a' -> b <= b' ->
  (checkNormalVisible w p node = true -> checkNormalVisible w p' node = true) /\
  (checkOverflowVisible p node parent = true ->
   checkOverflowVisible p' node parent = true).
Proof.
  intros Ha Hb Ha' Hb' Hle1 Hle2. split.
  - rewrite !checkNormalVisible_true.
    intros (x & y & Hx & Hy & H1 & H2).
    rewrite Ha in Hx. rewrite Hb in Hy. injection Hx as <-. injection Hy as <-.
    exists a', b'. repeat split; [assumption | assumption | lia | lia].
  - rewrite !checkOverflowVisible_true.
    intros (x & y & Hx & Hy & H1 & H2).
    rewrite Ha in Hx. rewrite Hb in Hy. injection Hx as <-. injection Hy as <-.
    exists a', b'. repeat split; [assumption | assumption | lia | lia].
Qed.

Lemma visibility_monotone_in_offsets_witness :
  let w := windowAt 0 400 in
  let node := nodeAt 420 50 0 in
  let parent := box 7 in
  let p := withOffset (OffsetArray [0; 100]) defaultProps in
  let p' := withOffset (OffsetArray [10; 200]) defaultProps in
  (checkNormalVisible w p node = true /\
   checkOverflowVisible p (nodeInBox 7 280) parent = true) /\
  (checkNormalVisible w p' node = true /\
   checkOverflowVisible p' (nodeInBox 7 280) parent = true).
Proof.
  cbv zeta. split; [split; reflexivity |]. split.
  - refine (proj1 (visibility_monotone_in_offsets
             (windowAt 0 400) (nodeAt 420 50 0) (box 7)
             (withOffset (OffsetArray [0; 100]) defaultProps)
             (withOffset (OffsetArray [10; 200]) defaultProps)
             0 100 10 200 _ _ _ _ _ _) _);
      first [reflexivity | lia].
  - refine (proj2 (visibility_monotone_in_offsets
             (windowAt 0 400) (nodeInBox 7 280) (box 7)
             (withOffset (OffsetArray [0; 100]) defaultProps)
             (withOffset (OffsetArray [10; 200]) defaultProps)
             0 100 10 200 _ _ _ _ _ _) _);
      first [reflexivity | lia].
Defined.

(** ** What a single check leaves alone *)

Ltac checkVisible_cases :=
  unfold checkVisible;
  repeat (case_match; simpl; try reflexivity).

Lemma checkVisible_listeners w c s :
  listeners (checkVisible w c s) = listeners s.
Proof. checkVisible_cases. Qed.

Lemma checkVisible_finalLazyLoadHandler w c s :
  finalLazyLoadHandler (checkVisible w c s) = finalLazyLoadHandler s.
Proof. checkVisible_cases. Qed.

Lemma checkVisible_windowListeners w c s :
  windowListeners (checkVisible w c s) = windowListeners s.
Proof. checkVisible_cases. Qed.

Lemma checkVisible_scrollBound w c s :
  scrollBound (checkVisible w c s) = scrollBound s.
Proof. checkVisible_cases. Qed.

Lemma checkVisible_listenFlag w c s :
  listenFlag (checkVisible w c s) = listenFlag s.
Proof. checkVisible_cases. Qed.

Lemma checkVisible_visible_other w c s x :
  x <> c -> visible (checkVisible w c s) x = visible s x.
Proof.
  intros Hne. unfold checkVisible.
  destruct (findDOMNode w c) as [node|]; [| reflexivity].
  destruct (visibleNow w c node), (visible s c), (once (propsOf w c)); simpl;
    rewrite ?bool_decide_eq_false_2 by assumption; reflexivity.
Qed.

(** ** The loop of the check pass runs to the end of the registry *)

Lemma foldl_checkVisible_listeners w l s :
  listeners (foldl (fun s c => checkVisible w c s) s l) = listeners s.
Proof.
  revert s. induction l as [|c l IH]; intros s; simpl; [reflexivity |].
  rewrite IH. apply checkVisible_listeners.
Qed.

Lemma checkFrom_drop w fuel : forall i s,
  (length (listeners s) <= i + fuel)%nat ->
  checkFrom w fuel i s =
  foldl (fun s c => checkVisible w c s) s (drop i (listeners s)).
Proof.
  induction fuel as [|fuel IH]; intros i s Hlen; simpl.
  - rewrite drop_ge by lia. reflexivity.
  - destruct (listeners s !! i) as [listener|] eqn:Hi.
    + rewrite (drop_S _ _ _ Hi). simpl.
      rewrite IH by (rewrite checkVisible_listeners; lia).
      rewrite checkVisible_listeners. reflexivity.
    + apply lookup_ge_None in Hi. rewrite drop_ge by lia. reflexivity.
Qed.

Lemma checkFrom_foldl w s :
  checkFrom w (length (listeners s)) 0 s =
  foldl (fun s c => checkVisible w c s) s (listeners s).
Proof. rewrite checkFrom_drop by lia. reflexivity. Qed.

Lemma lazyLoadHandler_foldl w s :
  lazyLoadHandler w s =
  purgePending (foldl (fun s c => checkVisible w c s) s (listeners s)).
Proof. unfold lazyLoadHandler. rewrite checkFrom_foldl. reflexivity. Qed.

(** C9. A check pass visits every registered element and then purges; when
    it is over the pending-removal sequence is empty, whatever happened to
    the elements during the pass. *)
Theorem pending_empty_after_check_pass (w : World) (s : State) :
  lazyLoadHandler w s =
    purgePending (foldl (fun s c => checkVisible w c s) s (listeners s)) /\
  pending (lazyLoadHandler w s) = [].
Proof. split; [apply lazyLoadHandler_foldl | reflexivity]. Qed.

(** ** What a single check does to the element checked *)

Lemma checkVisible_visible_self w c s node :
  findDOMNode w c = Some node ->
  visible (checkVisible w c s) c = visibleNow w c node.
Proof.
  intros Hnode. unfold checkVisible. rewrite Hnode.
  destruct (visibleNow w c node), (visible s c) eqn:Hflag; simpl;
    rewrite ?bool_decide_eq_true_2 by reflexivity; auto.
Qed.

Lemma checkVisible_forceUpdates w c s node :
  findDOMNode w c = Some node ->
  forceUpdates (checkVisible w c s) =
  forceUpdates s ++
    (if visibleNow w c node && negb (visible s c) then [c] else []).
Proof.
  intros Hnode. unfold checkVisible. rewrite Hnode.
  destruct (visibleNow w c node), (visible s c); simpl;
    rewrite ?app_nil_r; try reflexivity.
  destruct (once (propsOf w c)); reflexivity.
Qed.

(** C7. A check of a rendered element signals a redraw exactly when the
    computed visibility is true and the stored flag was false. The stored flag
    becomes the computed visibility and no other flag changes; a result of
    not visible writes the flag and nothing else; a result of visible on an
    element already visible changes nothing at all. *)
Theorem redraw_exactly_on_false_to_true
    (w : World) (c : cid) (s : State) (node : Node) :
  findDOMNode w c = Some node ->
  let v := visibleNow w c node in
  forceUpdates (checkVisible w c s) =
    forceUpdates s ++ (if v && negb (visible s c) then [c] else []) /\
  visible (checkVisible w c s) c = v /\
  (forall x, x <> c -> visible (checkVisible w c s) x = visible s x) /\
  (v = false -> checkVisible w c s = setVisible c false s) /\
  (v = true -> visible s c = true -> checkVisible w c s = s).
Proof.
  intros Hnode v. split; [| split; [| split; [| split]]].
  - apply checkVisible_forceUpdates. assumption.
  - apply checkVisible_visible_self. assumption.
  - intros x Hne. apply checkVisible_visible_other. assumption.
  - intros Hv. unfold checkVisible. rewrite Hnode. fold v. rewrite Hv.
    reflexivity.
  - intros Hv Hflag. unfold checkVisible. rewrite Hnode. fold v.
    rewrite Hv, Hflag. reflexivity.
Qed.

Lemma redraw_exactly_on_false_to_true_witness :
  let w := pageAt defaultProps 200 in
  findDOMNode w 0%nat = Some (nodeAt 500 50 200) /\
  forceUpdates (checkVisible w 0%nat initialState) = [0%nat] /\
  visible (checkVisible w 0%nat initialState) 0%nat = true.
Proof.
  cbv zeta.
  destruct (redraw_exactly_on_false_to_true
              (pageAt defaultProps 200) 0%nat initialState
              (nodeAt 500 50 200) eq_refl) as (Hlog & Hflag & _).
  split; [reflexivity |]. split; [exact Hlog | exact Hflag].
Defined.

(** ** Mounting *)

Ltac mount_cases w this s :=
  unfold componentDidMount; cbv zeta;
  destruct (overflow (propsOf w this));
  [ destruct (scrollParent (findDOMNode w this)) as [|parent];
    [| destruct (bool_decide
                   (containerId parent
                      ∈ listenFlag (createHandler (propsOf w this) s))) ]
  | destruct (bool_decide
                (length (listeners (createHandler (propsOf w this) s)) = 0%nat))
      eqn:Hempty ];
  simpl.

Lemma componentDidMount_finalLazyLoadHandler w this s :
  finalLazyLoadHandler (stateOf (componentDidMount w this s)) =
  finalLazyLoadHandler (createHandler (propsOf w this) s).
Proof.
  mount_cases w this s;
    rewrite ?checkVisible_finalLazyLoadHandler; reflexivity.
Qed.

Lemma createHandler_listeners p s :
  listeners (createHandler p s) = listeners s.
Proof. unfold createHandler. repeat case_match; reflexivity. Qed.

Lemma createHandler_windowListeners p s :
  windowListeners (createHandler p s) = windowListeners s.
Proof. unfold createHandler. repeat case_match; reflexivity. Qed.

(** C1. On the first mount the code builds Debounce when the [debounce] prop
    is defined, but takes the interval from the [throttle] prop; without a
    [debounce] prop it builds Throttle and takes the interval from the
    [debounce] prop, which is undefined there, so the interval is 300. With
    [debounce = 500] the handler is Debounce 300 where the selection rule
    gives Debounce 500; with [throttle = 100] it is Throttle 300 where the
    rule gives Throttle 100. *)
Theorem first_mount_handler_reads_the_other_prop :
  (forall (w : World) (this : cid),
     finalLazyLoadHandler (stateOf (componentDidMount w this initialState)) =
     Some (if isDefined (debounce (propsOf w this))
           then Debounce (numberOr (throttle (propsOf w this)) 300)
           else Throttle 300)) /\
  (let p := withDebounce (JsNumber 500) defaultProps in
   finalLazyLoadHandler
     (stateOf (componentDidMount (pageAt p 0) 0%nat initialState))
     = Some (Debounce 300) /\
   selectRateLimiterSpec p = Debounce 500) /\
  (let p := withThrottle (JsNumber 100) defaultProps in
   finalLazyLoadHandler
     (stateOf (componentDidMount (pageAt p 0) 0%nat initialState))
     = Some (Throttle 300) /\
   selectRateLimiterSpec p = Throttle 100).
Proof.
  split; [| split; split; reflexivity].
  intros w this. rewrite componentDidMount_finalLazyLoadHandler.
  unfold createHandler. simpl.
  destruct (debounce (propsOf w this)); reflexivity.
Qed.




Lemma componentDidMount_listeners w this s s' :
  componentDidMount w this s = Normal s' ->
  listeners s' = listeners s ++ [this].
Proof.
  mount_cases w this s; intros H; try discriminate;
    injection H as <-;
    rewrite checkVisible_listeners; simpl;
    rewrite ?createHandler_listeners; reflexivity.
Qed.

Lemma componentDidMount_threw_listeners w this s s' :
  componentDidMount w this s = Threw s' ->
  listeners s' = listeners s.
Proof.
  mount_cases w this s; intros H; try discriminate.
  injection H as <-. apply createHandler_listeners.
Qed.

Lemma componentDidMount_windowListeners_overflow w this s :
  overflow (propsOf w this) = true ->
  windowListeners (stateOf (componentDidMount w this s)) = windowListeners s.
Proof.
  intros Hov. unfold componentDidMount. cbv zeta. rewrite Hov.
  destruct (scrollParent (findDOMNode w this)) as [|parent]; simpl.
  - apply createHandler_windowListeners.
  - destruct (bool_decide _); simpl;
      rewrite checkVisible_windowListeners; simpl;
      apply createHandler_windowListeners.
Qed.

Lemma componentDidMount_windowListeners_nonempty w this s :
  overflow (propsOf w this) = false ->
  listeners s <> [] ->
  windowListeners (stateOf (componentDidMount w this s)) = windowListeners s.
Proof.
  intros Hov Hne. unfold componentDidMount. cbv zeta. rewrite Hov.
  rewrite createHandler_listeners.
  rewrite bool_decide_eq_false_2.
  - simpl. rewrite checkVisible_windowListeners. simpl.
    apply createHandler_windowListeners.
  - intros Hlen. apply Hne. destruct (listeners s); [reflexivity | discriminate].
Qed.

(** C10. Mounting a document-mode element while the registry is not empty
    attaches nothing to the window. The emptiness test counts every
    registered element: after an overflow-mode element has mounted into the
    empty registry, a document-mode element that mounts next is registered
    and the window still carries no scroll and no resize listener. *)
Theorem document_mount_skips_window_when_registry_nonempty
    (w1 w2 : World) (o d : cid) (s s1 : State) :
  overflow (propsOf w2 d) = false ->
  (listeners s <> [] ->
   windowListeners (stateOf (componentDidMount w2 d s)) = windowListeners s) /\
  (overflow (propsOf w1 o) = true ->
   componentDidMount w1 o initialState = Normal s1 ->
   listeners s1 = [o] /\
   listeners (stateOf (componentDidMount w2 d s1)) = [o; d] /\
   windowListeners (stateOf (componentDidMount w2 d s1)) = noWindowListeners).
Proof.
  intros Hd. split.
  - intros Hne. apply componentDidMount_windowListeners_nonempty; assumption.
  - intros Ho Hmount.
    assert (Hl1 : listeners s1 = [o]).
    { apply componentDidMount_listeners in Hmount. exact Hmount. }
    assert (Hw1 : windowListeners s1 = noWindowListeners).
    { pose proof (componentDidMount_windowListeners_overflow
                    w1 o initialState Ho) as Hw.
      rewrite Hmount in Hw. exact Hw. }
    split; [exact Hl1 |]. split.
    + destruct (componentDidMount w2 d s1) as [s2|s2] eqn:Hm2; simpl.
      * apply componentDidMount_listeners in Hm2. rewrite Hm2, Hl1. reflexivity.
      * exfalso. revert Hm2. unfold componentDidMount. cbv zeta. rewrite Hd.
        destruct (bool_decide _); discriminate.
    + rewrite componentDidMount_windowListeners_nonempty; try assumption.
      rewrite Hl1. discriminate.
Qed.

Lemma document_mount_skips_window_when_registry_nonempty_witness :
  let w2 := pageAt defaultProps 0 in
  let s1 := stateOf (componentDidMount boxPage 0%nat initialState) in
  overflow (propsOf w2 1%nat) = false /\
  overflow (propsOf boxPage 0%nat) = true /\
  scroll (propsOf w2 1%nat) = true /\
  componentDidMount boxPage 0%nat initialState = Normal s1 /\
  listeners s1 = [0%nat] /\
  listeners (stateOf (componentDidMount w2 1%nat s1)) = [0%nat; 1%nat] /\
  windowListeners (stateOf (componentDidMount w2 1%nat s1)) = noWindowListeners.
Proof.
  cbv zeta. split; [reflexivity |]. split; [reflexivity |].
  split; [reflexivity |]. split; [reflexivity |].
  exact (proj2 (document_mount_skips_window_when_registry_nonempty
                  boxPage (pageAt defaultProps 0) 0%nat 1%nat initialState
                  (stateOf (componentDidMount boxPage 0%nat initialState))
                  eq_refl)
               eq_refl eq_refl).
Defined.

(** ** What a check pass leaves alone *)

Lemma foldl_checkVisible_windowListeners w l s :
  windowListeners (foldl (fun s c => checkVisible w c s) s l)
  = windowListeners s.
Proof.
  revert s. induction l as [|c l IH]; intros s; simpl; [reflexivity |].
  rewrite IH. apply checkVisible_windowListeners.
Qed.

Lemma foldl_checkVisible_scrollBound w l s :
  scrollBound (foldl (fun s c => checkVisible w c s) s l) = scrollBound s.
Proof.
  revert s. induction l as [|c l IH]; intros s; simpl; [reflexivity |].
  rewrite IH. apply checkVisible_scrollBound.
Qed.

Lemma foldl_checkVisible_listenFlag w l s :
  listenFlag (foldl (fun s c => checkVisible w c s) s l) = listenFlag s.
Proof.
  revert s. induction l as [|c l IH]; intros s; simpl; [reflexivity |].
  rewrite IH. apply checkVisible_listenFlag.
Qed.

Lemma lazyLoadHandler_windowListeners w s :
  windowListeners (lazyLoadHandler w s) = windowListeners s.
Proof.
  rewrite lazyLoadHandler_foldl. simpl.
  apply foldl_checkVisible_windowListeners.
Qed.

Lemma lazyLoadHandler_scrollBound w s :
  scrollBound (lazyLoadHandler w s) = scrollBound s.
Proof.
  rewrite lazyLoadHandler_foldl. simpl. apply foldl_checkVisible_scrollBound.
Qed.

Lemma lazyLoadHandler_listenFlag w s :
  listenFlag (lazyLoadHandler w s) = listenFlag s.
Proof.
  rewrite lazyLoadHandler_foldl. simpl. apply foldl_checkVisible_listenFlag.
Qed.

(** C4: the code does not detach the window listeners when the purge of a
    pass empties the registry. No pass ever changes the listeners of the
    window. So when a document-mode [once] element mounts hidden, which
    attaches the scroll listener, and the next pass finds it visible and
    purges it, the registry is empty and the scroll listener is still
    attached. The unmount path, taking the same element out of the same
    registry, does detach the listeners once the registry is empty. *)
Theorem purge_to_empty_keeps_window_listeners :
  (forall (w : World) (s : State),
     windowListeners (lazyLoadHandler w s) = windowListeners s) /\
  (let p := withOnce defaultProps in
   let s1 := stateOf (componentDidMount (pageAt p 0) 0%nat initialState) in
   let s2 := lazyLoadHandler (pageAt p 200) s1 in
   let s3 := stateOf (componentWillUnmount (pageAt p 200) 0%nat s1) in
   listeners s1 = [0%nat] /\
   windowListeners s1 = {| onScroll := true; onResize := false |} /\
   forceUpdates s2 = [0%nat] /\
   listeners s2 = [] /\
   windowListeners s2 = {| onScroll := true; onResize := false |} /\
   listeners s3 = [] /\
   windowListeners s3 = noWindowListeners).
Proof.
  split; [apply lazyLoadHandler_windowListeners |].
  cbv zeta. repeat split; vm_compute; reflexivity.
Qed.

(** ** The window at an unmount *)

(** X14. An unmount that completes detaches the handler from both events of
    the window exactly when the registry is empty once the unmounting
    element has been taken out; otherwise it leaves the window as it is. *)
Theorem unmount_detaches_window_when_registry_empties
    (w : World) (this : cid) (s s' : State) :
  componentWillUnmount w this s = Normal s' ->
  windowListeners s' =
    if bool_decide (listeners s' = []) then noWindowListeners
    else windowListeners s.
Proof.
  unfold componentWillUnmount. cbv zeta.
  destruct (overflow (propsOf w this));
    [destruct (scrollParent (findDOMNode w this)) as [|parent];
       [discriminate |] |];
    simpl; destruct (removeFirst this (listeners s)) eqn:Hrm; simpl;
    intros H; injection H as <-; simpl; rewrite ?Hrm; reflexivity.
Qed.

Lemma unmount_detaches_window_when_registry_empties_witness :
  let w := twoPage defaultProps 0 in
  let s := twoMounted defaultProps in
  let s1 := stateOf (componentWillUnmount w 0%nat s) in
  let s2 := stateOf (componentWillUnmount w 1%nat s1) in
  componentWillUnmount w 0%nat s = Normal s1 /\
  componentWillUnmount w 1%nat s1 = Normal s2 /\
  windowListeners s = {| onScroll := true; onResize := false |} /\
  listeners s1 = [1%nat] /\
  windowListeners s1 = {| onScroll := true; onResize := false |} /\
  listeners s2 = [] /\
  windowListeners s2 = noWindowListeners.
Proof.
  cbv zeta.
  assert (Hnormal : forall st c,
    componentWillUnmount (twoPage defaultProps 0) c st =
    Normal (stateOf (componentWillUnmount (twoPage defaultProps 0) c st))).
  { intros st c. unfold componentWillUnmount. cbv zeta. simpl overflow.
    cbv iota. destruct (bool_decide _); reflexivity. }
  split; [apply Hnormal |]. split; [apply Hnormal |].
  split; [vm_compute; reflexivity |].
  split; [vm_compute; reflexivity |].
  split.
  - rewrite (unmount_detaches_window_when_registry_empties
               _ _ _ _ (Hnormal (twoMounted defaultProps) 0%nat)).
    vm_compute. reflexivity.
  - split; [vm_compute; reflexivity |].
    rewrite (unmount_detaches_window_when_registry_empties
               _ _ _ _
               (Hnormal (stateOf (componentWillUnmount
                                    (twoPage defaultProps 0) 0%nat
                                    (twoMounted defaultProps))) 1%nat)).
    vm_compute. reflexivity.
Defined.

(** C5: the code removes the binding of a shared container too early. Two
    overflow-mode elements mount into the same scrolling box: the first mount
    binds the scroll listener and sets the marker, the second finds the
    marker and binds nothing. When the first unmounts, the listener and the
    marker of the box are removed although the second element is still
    registered and still scrolls in that box. *)
Theorem unmount_unbinds_container_still_in_use :
  let s1 := stateOf (componentDidMount boxPage 0%nat initialState) in
  let s2 := stateOf (componentDidMount boxPage 1%nat s1) in
  let s3 := stateOf (componentWillUnmount boxPage 0%nat s2) in
  scrollParent (findDOMNode boxPage 0%nat) = ParentElement (box 7) /\
  scrollParent (findDOMNode boxPage 1%nat) = ParentElement (box 7) /\
  listeners s2 = [0%nat; 1%nat] /\
  (7%nat ∈ scrollBound s2) /\ (7%nat ∈ listenFlag s2) /\
  componentWillUnmount boxPage 0%nat s2 = Normal s3 /\
  listeners s3 = [1%nat] /\
  (7%nat ∉ scrollBound s3) /\ (7%nat ∉ listenFlag s3).
Proof.
  cbv zeta.
  split; [reflexivity |]. split; [reflexivity |].
  split; [vm_compute; reflexivity |].
  split; [apply (bool_decide_unpack _); vm_compute; exact I |].
  split; [apply (bool_decide_unpack _); vm_compute; exact I |].
  split.
  { unfold componentWillUnmount. cbv zeta. simpl overflow. cbv iota.
    simpl scrollParent. cbv iota. destruct (bool_decide _); reflexivity. }
  split; [vm_compute; reflexivity |].
  split; intros Hin; apply (bool_decide_pack _) in Hin;
    vm_compute in Hin; exact Hin.
Qed.

(** A scrolling ancestor loses its listener and its marker whenever an
    overflow-mode element inside it unmounts, whoever else is registered. *)
Lemma componentWillUnmount_unbinds_container w this s parent :
  overflow (propsOf w this) = true ->
  scrollParent (findDOMNode w this) = ParentElement parent ->
  (containerId parent ∉ scrollBound (stateOf (componentWillUnmount w this s))) /\
  (containerId parent ∉ listenFlag (stateOf (componentWillUnmount w this s))).
Proof.
  intros Hov Hparent. unfold componentWillUnmount. cbv zeta.
  rewrite Hov, Hparent. simpl.
  destruct (bool_decide _); simpl;
    (split; intros Hin; apply elem_of_difference in Hin as [_ Hin];
     apply Hin, elem_of_singleton; reflexivity).
Qed.

(** ** Removal from the registry *)

Lemma removeFirst_cons x y l :
  removeFirst x (y :: l) = if bool_decide (y = x) then l
                           else y :: removeFirst x l.
Proof.
  unfold removeFirst. simpl. destruct (bool_decide (y = x)); [reflexivity |].
  destruct (indexOf x l); reflexivity.
Qed.

Lemma removeFirst_sublist x l : removeFirst x l `sublist_of` l.
Proof.
  unfold removeFirst. destruct (indexOf x l); [apply sublist_delete | reflexivity].
Qed.

Lemma removeFirst_elem_of x y l : y ∈ removeFirst x l -> y ∈ l.
Proof. intros H. eapply elem_of_sublist; [exact H | apply removeFirst_sublist]. Qed.

Lemma removeFirst_NoDup x l : NoDup l -> NoDup (removeFirst x l).
Proof.
  intros Hnd. exact (sublist_NoDup _ _ Hnd (removeFirst_sublist x l)).
Qed.

Lemma removeFirst_gone x l : NoDup l -> x ∉ removeFirst x l.
Proof.
  induction l as [|y l IH]; intros Hnd.
  - unfold removeFirst. simpl. apply not_elem_of_nil.
  - rewrite removeFirst_cons. apply NoDup_cons in Hnd as [Hy Hnd].
    destruct (bool_decide (y = x)) eqn:Hyx.
    + apply bool_decide_eq_true in Hyx. subst y. assumption.
    + apply bool_decide_eq_false in Hyx.
      rewrite not_elem_of_cons. split; [congruence | auto].
Qed.

Lemma purge_NoDup pend : forall l,
  NoDup l -> NoDup (foldl (fun ls c => removeFirst c ls) l pend).
Proof.
  induction pend as [|y pend IH]; intros l Hnd; simpl; [assumption |].
  apply IH, removeFirst_NoDup, Hnd.
Qed.

Lemma purge_elem_of pend : forall l x,
  x ∈ foldl (fun ls c => removeFirst c ls) l pend -> x ∈ l.
Proof.
  induction pend as [|y pend IH]; intros l x; simpl; [auto |].
  intros H. apply IH in H. eapply removeFirst_elem_of, H.
Qed.

Lemma purge_gone pend : forall l x,
  NoDup l -> x ∈ pend ->
  x ∉ foldl (fun ls c => removeFirst c ls) l pend.
Proof.
  induction pend as [|y pend IH]; intros l x Hnd Hin; simpl.
  - apply elem_of_nil in Hin. contradiction.
  - apply elem_of_cons in Hin as [-> | Hin].
    + intros H. apply purge_elem_of in H.
      exact (removeFirst_gone y l Hnd H).
    + apply IH; [apply removeFirst_NoDup, Hnd | assumption].
Qed.

(** ** Redraw signals of one element *)

Lemma redraws_snoc (c x : cid) (l : list cid) :
  length (filter (fun y => y = c) (l ++ [x])) =
  (length (filter (fun y => y = c) l) + if bool_decide (x = c) then 1 else 0)%nat.
Proof.
  rewrite filter_app, length_app. f_equal.
  rewrite filter_cons, filter_nil.
  destruct (decide (x = c)) as [Heq | Hne].
  - rewrite bool_decide_eq_true_2 by assumption. reflexivity.
  - rewrite bool_decide_eq_false_2 by assumption. reflexivity.
Qed.

Lemma checkVisible_pending_mono w x s y :
  y ∈ pending s -> y ∈ pending (checkVisible w x s).
Proof.
  intros Hy. unfold checkVisible.
  destruct (findDOMNode w x) as [node|]; [| assumption].
  destruct (visibleNow w x node), (visible s x), (once (propsOf w x));
    simpl; try assumption.
  apply elem_of_app. left. assumption.
Qed.

Lemma checkVisible_redraws_other w x s c :
  x <> c -> redraws c (checkVisible w x s) = redraws c s.
Proof.
  intros Hne. unfold checkVisible, redraws.
  destruct (findDOMNode w x) as [node|]; [| reflexivity].
  destruct (visibleNow w x node), (visible s x), (once (propsOf w x));
    simpl; try reflexivity;
    rewrite redraws_snoc, bool_decide_eq_false_2 by assumption; lia.
Qed.

(** A check of a [once] element either sends it no signal, or finds its
    flag false, sends one signal, queues it for removal and sets the flag. *)
Lemma checkVisible_once_self w c s :
  once (propsOf w c) = true ->
  (redraws c (checkVisible w c s) = redraws c s) \/
  (visible s c = false /\
   redraws c (checkVisible w c s) = S (redraws c s) /\
   c ∈ pending (checkVisible w c s) /\
   visible (checkVisible w c s) c = true).
Proof.
  intros Honce. unfold checkVisible, redraws. rewrite Honce.
  destruct (findDOMNode w c) as [node|]; [| left; reflexivity].
  destruct (visibleNow w c node), (visible s c) eqn:Hflag; simpl;
    try (left; reflexivity).
  right. split; [reflexivity |]. split; [| split].
  - rewrite redraws_snoc, bool_decide_eq_true_2 by reflexivity. lia.
  - apply elem_of_app. right. apply list_elem_of_singleton. reflexivity.
  - rewrite bool_decide_eq_true_2 by reflexivity. reflexivity.
Qed.

Lemma foldl_checkVisible_pending_mono w l : forall s y,
  y ∈ pending s -> y ∈ pending (foldl (fun s c => checkVisible w c s) s l).
Proof.
  induction l as [|x l IH]; intros s y Hy; simpl; [assumption |].
  apply IH, checkVisible_pending_mono, Hy.
Qed.

(** The loop of a pass, seen from a [once] element [c]: it gets at most one
    signal in its life, and if it has had its signal and is in the list
    walked, it is queued for removal when the loop ends. *)
Lemma check_loop_once w c :
  once (propsOf w c) = true ->
  forall l s,
    NoDup l ->
    (redraws c s <= 1)%nat ->
    ((0 < redraws c s)%nat -> c ∈ l -> c ∈ pending s /\ visible s c = true) ->
    let s' := foldl (fun s x => checkVisible w x s) s l in
    (redraws c s' <= 1)%nat /\
    ((0 < redraws c s')%nat -> c ∈ l -> c ∈ pending s') /\
    (c ∉ l -> redraws c s' = redraws c s).
Proof.
  intros Honce. induction l as [|x l IH]; intros s Hnd Hle Hshown; simpl.
  - split; [assumption |]. split; [| reflexivity].
    intros _ Hin. apply elem_of_nil in Hin. contradiction.
  - apply NoDup_cons in Hnd as [Hx Hnd].
    destruct (decide (x = c)) as [-> | Hne].
    + assert (Hc : (redraws c (checkVisible w c s) <= 1)%nat /\
                   ((0 < redraws c (checkVisible w c s))%nat ->
                    c ∈ pending (checkVisible w c s))).
      { destruct (checkVisible_once_self w c s Honce)
          as [Hsame | (Hflag & Hinc & Hpend & _)].
        - rewrite Hsame. split; [assumption |]. intros Hpos.
          apply checkVisible_pending_mono.
          apply Hshown; [assumption | apply elem_of_cons; left; reflexivity].
        - assert (redraws c s = 0)%nat as Hzero.
          { destruct (redraws c s) as [|n] eqn:Hn; [reflexivity |].
            destruct Hshown as [_ Hvis];
              [lia | apply elem_of_cons; left; reflexivity |].
            congruence. }
          split; [lia | auto]. }
      destruct Hc as [Hle1 Hpend1].
      destruct (IH (checkVisible w c s) Hnd Hle1) as (Hle' & _ & Hsame').
      { intros _ Hin. contradiction. }
      specialize (Hsame' Hx). split; [assumption |]. split.
      * intros Hpos _. apply foldl_checkVisible_pending_mono.
        apply Hpend1. lia.
      * intros Hnot. exfalso. apply Hnot, elem_of_cons. left. reflexivity.
    + pose proof (checkVisible_redraws_other w x s c Hne) as Hsame.
      destruct (IH (checkVisible w x s) Hnd) as (Hle' & Hpend' & Hsame').
      * rewrite Hsame. assumption.
      * rewrite Hsame. intros Hpos Hin.
        destruct Hshown as [Hp Hv];
          [assumption | apply elem_of_cons; right; assumption |].
        split; [apply checkVisible_pending_mono, Hp |].
        rewrite checkVisible_visible_other by congruence. assumption.
      * split; [assumption |]. split.
        -- intros Hpos Hin. apply Hpend'; [assumption |].
           apply elem_of_cons in Hin as [-> | Hin]; [contradiction | assumption].
        -- intros Hnot. rewrite Hsame', Hsame; [reflexivity |].
           intros Hin. apply Hnot, elem_of_cons. right. assumption.
Qed.

(** ** The invariant of a [once] element along a run *)

(** The invariant reads four parts of the state only. *)
Lemma OnceInv_ext c M s s' :
  listeners s' = listeners s ->
  pending s' = pending s ->
  forceUpdates s' = forceUpdates s ->
  visible s' = visible s ->
  OnceInv c M s -> OnceInv c M s'.
Proof.
  intros Hl Hp Hf Hv [Hnd Hreg Hm Ho Hs].
  assert (Hr : redraws c s' = redraws c s) by (unfold redraws; rewrite Hf; reflexivity).
  split; rewrite ?Hl, ?Hp, ?Hr, ?Hv; assumption.
Qed.

Lemma OnceInv_weaken c M M' s :
  (forall x, x ∈ M -> x ∈ M') -> OnceInv c M s -> OnceInv c M' s.
Proof.
  intros Hsub [Hnd Hreg Hm Ho Hs]. split; auto.
Qed.

Lemma OnceInv_initial c : OnceInv c [] initialState.
Proof.
  split; simpl.
  - apply NoDup_nil_2.
  - intros x Hx. exact Hx.
  - unfold redraws. simpl. lia.
  - unfold redraws. simpl. lia.
  - unfold redraws. simpl. lia.
Qed.

(** A pass keeps the invariant, and an element that has had its signal is
    out of the registry when the pass is over. *)
Lemma lazyLoadHandler_OnceInv w c M s :
  once (propsOf w c) = true ->
  OnceInv c M s ->
  OnceInv c M (lazyLoadHandler w s) /\
  ((0 < redraws c (lazyLoadHandler w s))%nat ->
   c ∉ listeners (lazyLoadHandler w s)).
Proof.
  intros Honce [Hnd Hreg Hm Ho Hs].
  rewrite lazyLoadHandler_foldl.
  destruct (check_loop_once w c Honce (listeners s) s Hnd Ho Hs)
    as (Hle & Hpend & Hsame).
  set (sl := foldl (fun s x => checkVisible w x s) s (listeners s)) in *.
  assert (Hll : listeners sl = listeners s)
    by apply foldl_checkVisible_listeners.
  assert (Hr : redraws c (purgePending sl) = redraws c sl) by reflexivity.
  assert (Hgone : (0 < redraws c sl)%nat -> c ∉ listeners (purgePending sl)).
  { intros Hpos. simpl. rewrite Hll.
    destruct (decide (c ∈ listeners s)) as [Hin | Hnin].
    - apply purge_gone; [assumption | apply Hpend; assumption].
    - intros H. apply purge_elem_of in H. contradiction. }
  split; [| rewrite Hr; exact Hgone].
  split; rewrite ?Hr.
  - simpl. rewrite Hll. apply purge_NoDup, Hnd.
  - simpl. rewrite Hll. intros x Hx. apply purge_elem_of in Hx. auto.
  - intros Hpos. destruct (decide (c ∈ listeners s)) as [Hin | Hnin].
    + auto.
    + apply Hm. rewrite <- (Hsame Hnin). assumption.
  - assumption.
  - intros Hpos Hin. exfalso. exact (Hgone Hpos Hin).
Qed.

(** The state a mount has reached when it registers the instance (or throws)
    differs from the one it started in by the handler and the bindings
    only. *)
Lemma componentDidMount_shape w this s :
  exists s2,
    listeners s2 = listeners s /\ pending s2 = pending s /\
    forceUpdates s2 = forceUpdates s /\ visible s2 = visible s /\
    (componentDidMount w this s = Threw s2 \/
     componentDidMount w this s =
       Normal (checkVisible w this (setListeners (listeners s2 ++ [this]) s2))).
Proof.
  assert (Hc : forall p, listeners (createHandler p s) = listeners s /\
                         pending (createHandler p s) = pending s /\
                         forceUpdates (createHandler p s) = forceUpdates s /\
                         visible (createHandler p s) = visible s).
  { intros p. unfold createHandler.
    destruct (finalLazyLoadHandler s); [auto |].
    destruct (isDefined (debounce p)); auto. }
  destruct (Hc (propsOf w this)) as (Hl & Hp & Hf & Hv).
  set (s1 := createHandler (propsOf w this) s) in *.
  unfold componentDidMount. cbv zeta. fold s1.
  destruct (overflow (propsOf w this)).
  - destruct (scrollParent (findDOMNode w this)) as [|parent].
    + exists s1. auto 6.
    + destruct (bool_decide (containerId parent ∈ listenFlag s1)).
      * exists s1. auto 6.
      * exists (setListenFlag ({[containerId parent]} ∪ listenFlag s1)
                  (setScrollBound ({[containerId parent]} ∪ scrollBound s1) s1)).
        simpl. auto 6.
  - destruct (bool_decide (length (listeners s1) = 0%nat)).
    + eexists (setWindowListeners _ s1). simpl.
      split; [exact Hl |]. split; [exact Hp |]. split; [exact Hf |].
      split; [exact Hv |]. right. reflexivity.
    + exists s1. auto 6.
Qed.

Lemma componentDidMount_OnceInv w c M x s :
  once (propsOf w c) = true ->
  x ∉ M ->
  OnceInv c M s ->
  OnceInv c (M ++ [x]) (stateOf (componentDidMount w x s)).
Proof.
  intros Honce Hfresh Hinv.
  destruct (componentDidMount_shape w x s)
    as (s2 & Hl & Hp & Hf & Hv & [Hthrew | Hnormal]).
  - rewrite Hthrew. simpl.
    eapply OnceInv_weaken; [| eapply OnceInv_ext; eauto].
    intros y Hy. apply elem_of_app. left. assumption.
  - rewrite Hnormal. simpl.
    set (s3 := setListeners (listeners s2 ++ [x]) s2).
    assert (Hinv2 : OnceInv c M s2) by (eapply OnceInv_ext; eauto).
    destruct Hinv2 as [Hnd Hreg Hm Ho Hs].
    assert (Hr3 : redraws c s3 = redraws c s2) by reflexivity.
    split.
    + rewrite checkVisible_listeners. simpl.
      apply NoDup_app. split; [assumption |]. split.
      * intros y Hy Hyx. apply list_elem_of_singleton in Hyx. subst y. auto.
      * apply NoDup_singleton.
    + rewrite checkVisible_listeners. simpl. intros y Hy.
      apply elem_of_app in Hy as [Hy | Hy]; apply elem_of_app; auto.
    + intros Hpos. apply elem_of_app.
      destruct (decide (x = c)) as [-> | Hne].
      * right. apply list_elem_of_singleton. reflexivity.
      * left. apply Hm.
        rewrite checkVisible_redraws_other in Hpos by assumption.
        rewrite Hr3 in Hpos. assumption.
    + destruct (decide (x = c)) as [-> | Hne].
      * assert (redraws c s2 = 0)%nat as Hzero.
        { destruct (redraws c s2) eqn:Hn; [reflexivity |].
          exfalso. apply Hfresh, Hm. lia. }
        destruct (checkVisible_once_self w c s3 Honce)
          as [Hsame | (_ & Hinc & _)]; rewrite ?Hsame, ?Hinc, Hr3; lia.
      * rewrite checkVisible_redraws_other by assumption.
        rewrite Hr3. assumption.
    + rewrite checkVisible_listeners. simpl. intros Hpos Hin.
      destruct (decide (x = c)) as [-> | Hne].
      * assert (redraws c s2 = 0)%nat as Hzero.
        { destruct (redraws c s2) eqn:Hn; [reflexivity |].
          exfalso. apply Hfresh, Hm. lia. }
        destruct (checkVisible_once_self w c s3 Honce)
          as [Hsame | (_ & _ & Hpend & Hvis)]; [| auto].
        rewrite Hsame, Hr3 in Hpos. lia.
      * rewrite checkVisible_redraws_other in Hpos by assumption.
        rewrite Hr3 in Hpos.
        apply elem_of_app in Hin as [Hin | Hin];
          [| apply list_elem_of_singleton in Hin; congruence].
        destruct (Hs Hpos Hin) as [Hpend Hvis]. split.
        -- apply checkVisible_pending_mono. exact Hpend.
        -- rewrite checkVisible_visible_other by congruence. exact Hvis.
Qed.

Lemma componentWillUnmount_shape w this s :
  let s' := stateOf (componentWillUnmount w this s) in
  (listeners s' = listeners s \/ listeners s' = removeFirst this (listeners s)) /\
  pending s' = pending s /\
  forceUpdates s' = forceUpdates s /\ visible s' = visible s.
Proof.
  unfold componentWillUnmount. cbv zeta.
  destruct (overflow (propsOf w this));
    [destruct (scrollParent (findDOMNode w this)) as [|parent] |];
    simpl; auto;
    destruct (bool_decide _); simpl; auto.
Qed.

Lemma componentWillUnmount_OnceInv w c M x s :
  OnceInv c M s -> OnceInv c M (stateOf (componentWillUnmount w x s)).
Proof.
  intros Hinv.
  destruct (componentWillUnmount_shape w x s) as ([Hl | Hl] & Hp & Hf & Hv).
  - eapply OnceInv_ext; eauto.
  - destruct Hinv as [Hnd Hreg Hm Ho Hs].
    assert (Hr : redraws c (stateOf (componentWillUnmount w x s)) = redraws c s)
      by (unfold redraws; rewrite Hf; reflexivity).
    split; rewrite ?Hl, ?Hp, ?Hr, ?Hv.
    + apply removeFirst_NoDup, Hnd.
    + intros y Hy. apply removeFirst_elem_of in Hy. auto.
    + assumption.
    + assumption.
    + intros Hpos Hin. apply removeFirst_elem_of in Hin. auto.
Qed.

Lemma mounts_cons we tr :
  mounts (we :: tr) =
  match we.2 with
  | Mount x => x :: mounts tr
  | _ => mounts tr
  end.
Proof. unfold mounts. simpl. destruct (we.2); reflexivity. Qed.

Lemma mounts_app tr1 tr2 : mounts (tr1 ++ tr2) = mounts tr1 ++ mounts tr2.
Proof. unfold mounts. apply omap_app. Qed.

Lemma run_app tr1 tr2 s : run (tr1 ++ tr2) s = run tr2 (run tr1 s).
Proof. unfold run. apply foldl_app. Qed.

Lemma run_OnceInv c tr : forall M s,
  (forall we, we ∈ tr -> once (propsOf we.1 c) = true) ->
  NoDup (M ++ mounts tr) ->
  OnceInv c M s ->
  OnceInv c (M ++ mounts tr) (run tr s).
Proof.
  induction tr as [|[w e] tr IH]; intros M s Honce Hnd Hinv.
  - simpl. rewrite app_nil_r. assumption.
  - assert (Hw : once (propsOf w c) = true).
    { apply (Honce (w, e)). apply elem_of_cons. left. reflexivity. }
    assert (Hrest : forall we, we ∈ tr -> once (propsOf we.1 c) = true).
    { intros we Hin. apply Honce, elem_of_cons. right. assumption. }
    rewrite mounts_cons in *. change (run ((w, e) :: tr) s)
      with (run tr (step s (w, e))).
    destruct e as [x | x |]; simpl in *.
    + replace (M ++ x :: mounts tr) with ((M ++ [x]) ++ mounts tr) in *
        by (rewrite <- app_assoc; reflexivity).
      apply IH; [assumption | assumption |].
      apply componentDidMount_OnceInv; [assumption | | assumption].
      apply NoDup_app in Hnd as [Hnd _].
      apply NoDup_app in Hnd as (_ & Hdisj & _).
      intros Hin. apply (Hdisj x Hin), list_elem_of_singleton. reflexivity.
    + apply IH; [assumption | assumption |].
      apply componentWillUnmount_OnceInv. assumption.
    + apply IH; [assumption | assumption |].
      apply lazyLoadHandler_OnceInv; assumption.
Qed.

Lemma step_listeners s w e x :
  x ∈ listeners (step s (w, e)) ->
  x ∈ listeners s \/ e = Mount x.
Proof.
  destruct e as [y | y |];
    [ change (step s (w, Mount y)) with (stateOf (componentDidMount w y s))
    | change (step s (w, Unmount y))
        with (stateOf (componentWillUnmount w y s))
    | change (step s (w, Tick)) with (lazyLoadHandler w s) ].
  - destruct (componentDidMount_shape w y s)
      as (s2 & Hl & _ & _ & _ & [H | H]); rewrite H; simpl.
    + rewrite Hl. auto.
    + rewrite checkVisible_listeners. simpl. rewrite Hl.
      intros Hin. apply elem_of_app in Hin as [Hin | Hin]; [auto |].
      apply list_elem_of_singleton in Hin. subst. auto.
  - destruct (componentWillUnmount_shape w y s) as ([Hl | Hl] & _);
      rewrite Hl; [auto |].
    intros Hin. apply removeFirst_elem_of in Hin. auto.
  - rewrite lazyLoadHandler_foldl. simpl.
    rewrite foldl_checkVisible_listeners.
    intros Hin. apply purge_elem_of in Hin. auto.
Qed.

(** An element that is out of the registry stays out for as long as it is
    not mounted. *)
Lemma run_absent c tr : forall s,
  c ∉ listeners s -> c ∉ mounts tr -> c ∉ listeners (run tr s).
Proof.
  induction tr as [|[w e] tr IH]; intros s Hout Hnm; [assumption |].
  change (run ((w, e) :: tr) s) with (run tr (step s (w, e))).
  rewrite mounts_cons in Hnm. apply IH.
  - intros Hin. apply step_listeners in Hin as [Hin | ->]; [auto |].
    simpl in Hnm. apply Hnm, elem_of_cons. left. reflexivity.
  - destruct e; simpl in Hnm; [| assumption | assumption].
    intros Hin. apply Hnm, elem_of_cons. right. assumption.
Qed.

(** C3. Take a run from the loaded module in which every instance mounts at
    most once, and an element [c] whose [once] prop is true throughout. Then
    [c] receives at most one redraw signal, that is, its flag goes from false
    to true at most once; and once a pass has ended with that transition
    behind it (the pass in which it happened, or the first pass after a
    transition made by the check at mount), [c] is out of the registry after
    that pass and after every later event, so no later pass finds it. *)
Theorem once_element_transitions_once_then_leaves
    (c : cid) (tr : list (World * Event)) :
  NoDup (mounts tr) ->
  (forall we, we ∈ tr -> once (propsOf we.1 c) = true) ->
  (redraws c (run tr initialState) <= 1)%nat /\
  (forall tr1 w tr2 tr3,
     tr = tr1 ++ (w, Tick) :: tr2 ++ tr3 ->
     (0 < redraws c (run (tr1 ++ [(w, Tick)]) initialState))%nat ->
     c ∉ listeners (run (tr1 ++ (w, Tick) :: tr2) initialState)).
Proof.
  intros Hnd Honce. split.
  - apply (inv_once c (mounts tr)).
    apply (run_OnceInv c tr [] initialState Honce Hnd (OnceInv_initial c)).
  - intros tr1 w tr2 tr3 -> Hpos.
    assert (Honce1 : forall we, we ∈ tr1 -> once (propsOf we.1 c) = true).
    { intros we Hin. apply Honce, elem_of_app. left. assumption. }
    assert (Hw : once (propsOf w c) = true).
    { apply (Honce (w, Tick)), elem_of_app. right.
      apply elem_of_cons. left. reflexivity. }
    rewrite mounts_app, mounts_cons, mounts_app in Hnd. simpl in Hnd.
    assert (Hnd1 : NoDup (mounts tr1)) by (apply NoDup_app in Hnd; tauto).
    pose proof (run_OnceInv c tr1 [] initialState Honce1 Hnd1
                  (OnceInv_initial c)) as Hinv. simpl in Hinv.
    destruct (lazyLoadHandler_OnceInv w c _ _ Hw Hinv) as [Hinv' Hgone].
    rewrite run_app in Hpos.
    change (run [(w, Tick)] (run tr1 initialState))
      with (lazyLoadHandler w (run tr1 initialState)) in Hpos.
    change (tr1 ++ (w, Tick) :: tr2) with (tr1 ++ [(w, Tick)] ++ tr2).
    rewrite run_app, run_app.
    change (run [(w, Tick)] (run tr1 initialState))
      with (lazyLoadHandler w (run tr1 initialState)).
    apply run_absent; [apply Hgone, Hpos |].
    pose proof (inv_mounted _ _ _ Hinv' Hpos) as Hm.
    apply NoDup_app in Hnd as (_ & Hdisj & _).
    intros Hin. apply (Hdisj c Hm), elem_of_app. left. assumption.
Qed.

Lemma once_element_transitions_once_then_leaves_witness :
  NoDup (mounts onceRun) /\
  redraws 0%nat (run (take 2 onceRun) initialState) = 1%nat /\
  (redraws 0%nat (run onceRun initialState) <= 1)%nat /\
  0%nat ∉ listeners (run (take 3 onceRun) initialState).
Proof.
  assert (Hnd : NoDup (mounts onceRun)) by apply NoDup_singleton.
  assert (Honce : forall we, we ∈ onceRun ->
                             once (propsOf we.1 0%nat) = true).
  { intros we Hin. unfold onceRun in Hin.
    repeat (apply elem_of_cons in Hin as [-> | Hin]; [reflexivity |]).
    apply elem_of_nil in Hin. contradiction. }
  destruct (once_element_transitions_once_then_leaves 0%nat onceRun Hnd Honce)
    as [Hle Hgone].
  split; [exact Hnd |]. split; [reflexivity |]. split; [exact Hle |].
  apply (Hgone [(pageAt (withOnce defaultProps) 0, Mount 0%nat)]
               (pageAt (withOnce defaultProps) 200)
               [(pageAt (withOnce defaultProps) 0, Tick)]
               [(pageAt (withOnce defaultProps) 200, Tick)]);
    [reflexivity |].
  apply Nat.lt_0_1.
Defined.

(** ** Further properties of the geometric tests *)

(** X1. In container mode the test is true exactly when
    [offsetTop >= scrollTop - offsetLeading] and
    [offsetTop + height - offsetTrailing <= scrollTop + offsetHeight], all
    measured on the scrolling ancestor; both comparisons are inclusive. *)
Theorem checkOverflowVisible_container_inequality
    (p : Props) (node : Node) (parent : Container)
    (offsetLeading offsetTrailing : Z) :
  offsets (offset p) !! 0%nat = Some offsetLeading ->
  offsets (offset p) !! 1%nat = Some offsetTrailing ->
  (checkOverflowVisible p node parent = true <->
     offsetTop node >= containerScrollTop parent - offsetLeading /\
     offsetTop node + rectHeight node - offsetTrailing
       <= containerScrollTop parent + containerOffsetHeight parent).
Proof.
  intros Ha Hb. rewrite checkOverflowVisible_true. split.
  - intros (a & b & Ha' & Hb' & H1 & H2).
    rewrite Ha in Ha'. rewrite Hb in Hb'.
    injection Ha' as <-. injection Hb' as <-. auto.
  - intros [H1 H2]. exists offsetLeading, offsetTrailing. auto.
Qed.

Lemma checkOverflowVisible_container_inequality_witness :
  let p := withOffset (OffsetNumber 10) defaultProps in
  offsets (offset p) !! 0%nat = Some 10 /\
  offsets (offset p) !! 1%nat = Some 10 /\
  checkOverflowVisible p (nodeInBox 3 40) (scrolledBox 3) = true /\
  checkOverflowVisible p (nodeInBox 3 39) (scrolledBox 3) = false.
Proof.
  cbv zeta. split; [reflexivity |]. split; [reflexivity |]. split.
  - apply (checkOverflowVisible_container_inequality
             (withOffset (OffsetNumber 10) defaultProps)
             (nodeInBox 3 40) (scrolledBox 3) 10 10 eq_refl eq_refl).
    simpl. lia.
  - apply not_true_is_false. intros Hvis.
    apply (checkOverflowVisible_container_inequality
             (withOffset (OffsetNumber 10) defaultProps)
             (nodeInBox 3 39) (scrolledBox 3) 10 10 eq_refl eq_refl) in Hvis.
    simpl in Hvis. lia.
Defined.

(** X2. An [offset] array with fewer than two numbers leaves a component of
    the offsets undefined, and then neither test ever holds: the element is
    never found visible, wherever it is. *)
Theorem short_offset_array_never_visible
    (w : Window) (p : Props) (node : Node) (parent : Container) :
  (length (offsets (offset p)) < 2)%nat ->
  checkNormalVisible w p node = false /\
  checkOverflowVisible p node parent = false.
Proof.
  intros Hlen.
  assert (Hnone : offsets (offset p) !! 1%nat = None)
    by (apply lookup_ge_None; lia).
  split; apply not_true_is_false.
  - rewrite checkNormalVisible_true. intros (a & b & _ & Hb & _). congruence.
  - rewrite checkOverflowVisible_true. intros (a & b & _ & Hb & _). congruence.
Qed.

Lemma short_offset_array_never_visible_witness :
  let p := withOffset (OffsetArray [1000]) defaultProps in
  (length (offsets (offset p)) < 2)%nat /\
  checkNormalVisible (windowAt 0 400) p (nodeAt 10 50 0) = false /\
  checkOverflowVisible p (nodeInBox 7 10) (box 7) = false.
Proof.
  cbv zeta. split; [simpl; lia |]. split.
  - refine (proj1 (short_offset_array_never_visible
                     (windowAt 0 400)
                     (withOffset (OffsetArray [1000]) defaultProps)
                     (nodeAt 10 50 0) (box 7) _)).
    simpl. lia.
  - refine (proj2 (short_offset_array_never_visible
                     (windowAt 0 400)
                     (withOffset (OffsetArray [1000]) defaultProps)
                     (nodeInBox 7 10) (box 7) _)).
    simpl. lia.
Defined.

(** ** The check pass as a whole *)

Lemma checkVisible_forceUpdates_becomesVisible w c s :
  forceUpdates (checkVisible w c s) =
  forceUpdates s ++ (if becomesVisible w s c then [c] else []).
Proof.
  unfold becomesVisible. destruct (findDOMNode w c) as [node|] eqn:Hnode.
  - apply checkVisible_forceUpdates. assumption.
  - unfold checkVisible. rewrite Hnode, app_nil_r. reflexivity.
Qed.

Lemma checkVisible_pending_becomesVisible w c s :
  pending (checkVisible w c s) =
  pending s ++ (if once (propsOf w c) && becomesVisible w s c then [c] else []).
Proof.
  unfold becomesVisible, checkVisible.
  destruct (findDOMNode w c) as [node|];
    [| rewrite andb_false_r, app_nil_r; reflexivity].
  destruct (visibleNow w c node), (visible s c), (once (propsOf w c));
    simpl; rewrite ?app_nil_r; reflexivity.
Qed.

Lemma checkVisible_becomesVisible_other w x s c :
  c <> x -> becomesVisible w (checkVisible w x s) c = becomesVisible w s c.
Proof.
  intros Hne. unfold becomesVisible.
  rewrite checkVisible_visible_other by assumption. reflexivity.
Qed.

Lemma foldl_checkVisible_effects w l : forall s,
  NoDup l ->
  forceUpdates (foldl (fun s c => checkVisible w c s) s l) =
    forceUpdates s ++ List.filter (becomesVisible w s) l /\
  pending (foldl (fun s c => checkVisible w c s) s l) =
    pending s ++
    List.filter (fun c => once (propsOf w c) && becomesVisible w s c) l.
Proof.
  induction l as [|x l IH]; intros s Hnd; simpl.
  - rewrite !app_nil_r. split; reflexivity.
  - apply NoDup_cons in Hnd as [Hx Hnd].
    destruct (IH (checkVisible w x s) Hnd) as [Hlog Hpend].
    assert (Hsame : forall c, In c l ->
              becomesVisible w (checkVisible w x s) c = becomesVisible w s c).
    { intros c Hin. apply checkVisible_becomesVisible_other.
      intros ->. apply Hx, list_elem_of_In, Hin. }
    rewrite Hlog, Hpend.
    rewrite checkVisible_forceUpdates_becomesVisible,
            checkVisible_pending_becomesVisible.
    rewrite (List.filter_ext_in _ (becomesVisible w s) l Hsame).
    rewrite (List.filter_ext_in
               (fun c => once (propsOf w c)
                         && becomesVisible w (checkVisible w x s) c)
               (fun c => once (propsOf w c) && becomesVisible w s c) l)
      by (intros c Hin; rewrite (Hsame c Hin); reflexivity).
    rewrite <- !app_assoc.
    split; f_equal.
    + destruct (becomesVisible w s x); reflexivity.
    + destruct (once (propsOf w x) && becomesVisible w s x); reflexivity.
Qed.

Lemma foldl_checkVisible_visible_other w l : forall s c,
  c ∉ l -> visible (foldl (fun s x => checkVisible w x s) s l) c = visible s c.
Proof.
  induction l as [|x l IH]; intros s c Hc; simpl; [reflexivity |].
  apply not_elem_of_cons in Hc as [Hne Hc].
  rewrite IH by assumption. apply checkVisible_visible_other. assumption.
Qed.

Lemma foldl_checkVisible_visible_checked w l : forall s c node,
  c ∈ l -> findDOMNode w c = Some node ->
  visible (foldl (fun s x => checkVisible w x s) s l) c = visibleNow w c node.
Proof.
  induction l as [|x l IH]; intros s c node Hin Hnode; simpl.
  - apply elem_of_nil in Hin. contradiction.
  - destruct (decide (c ∈ l)) as [Hl | Hl].
    + apply IH; assumption.
    + apply elem_of_cons in Hin as [-> | Hin]; [| contradiction].
      rewrite foldl_checkVisible_visible_other by assumption.
      apply checkVisible_visible_self. assumption.
Qed.

(** X3. A pass over a registry without repetitions sends its redraw signals
    in registration order, one to each element that is rendered, passes the
    test and had its flag false; when it is over the flag of every rendered
    registered element is the result of the test, and the flags of elements
    outside the registry are as before. *)
Theorem check_pass_signals_in_registration_order (w : World) (s : State) :
  NoDup (listeners s) ->
  forceUpdates (lazyLoadHandler w s) =
    forceUpdates s ++ List.filter (becomesVisible w s) (listeners s) /\
  (forall c node, c ∈ listeners s -> findDOMNode w c = Some node ->
     visible (lazyLoadHandler w s) c = visibleNow w c node) /\
  (forall c, c ∉ listeners s ->
     visible (lazyLoadHandler w s) c = visible s c).
Proof.
  intros Hnd. rewrite lazyLoadHandler_foldl. simpl. split; [| split].
  - apply foldl_checkVisible_effects. assumption.
  - intros c node. apply foldl_checkVisible_visible_checked.
  - intros c. apply foldl_checkVisible_visible_other.
Qed.

Lemma check_pass_signals_in_registration_order_witness :
  let s := twoMounted defaultProps in
  NoDup (listeners s) /\
  forceUpdates (lazyLoadHandler (twoPage defaultProps 200) s) = [0%nat] /\
  visible (lazyLoadHandler (twoPage defaultProps 200) s) 0%nat = true /\
  visible (lazyLoadHandler (twoPage defaultProps 200) s) 1%nat = false.
Proof.
  cbv zeta.
  assert (Hnd : NoDup (listeners (twoMounted defaultProps))).
  { change (listeners (twoMounted defaultProps)) with [0%nat; 1%nat].
    apply NoDup_cons. split; [| apply NoDup_singleton].
    intros Hin. apply list_elem_of_singleton in Hin. discriminate. }
  destruct (check_pass_signals_in_registration_order
              (twoPage defaultProps 200) (twoMounted defaultProps) Hnd)
    as (Hlog & Hflag & _).
  split; [exact Hnd |]. split; [exact Hlog |]. split.
  - apply (Hflag 0%nat (nodeAt 500 50 200)); [| reflexivity].
    apply elem_of_cons. left. reflexivity.
  - apply (Hflag 1%nat (nodeAt 900 50 200)); [| reflexivity].
    apply elem_of_cons. right. apply elem_of_cons. left. reflexivity.
Defined.

(** ** The registry after a pass *)

Lemma removeFirst_absent x l : x ∉ l -> removeFirst x l = l.
Proof.
  induction l as [|y l IH]; intros Hx; [reflexivity |].
  apply not_elem_of_cons in Hx as [Hne Hx].
  rewrite removeFirst_cons, bool_decide_eq_false_2 by congruence.
  rewrite IH by assumption. reflexivity.
Qed.

Lemma removeFirst_filter x l :
  NoDup l ->
  removeFirst x l = List.filter (fun y => negb (bool_decide (y = x))) l.
Proof.
  induction l as [|y l IH]; intros Hnd; [reflexivity |].
  apply NoDup_cons in Hnd as [Hy Hnd].
  rewrite removeFirst_cons. simpl.
  destruct (bool_decide (y = x)) eqn:Hyx; simpl.
  - apply bool_decide_eq_true in Hyx. subst y.
    rewrite <- IH by assumption. symmetry. apply removeFirst_absent, Hy.
  - rewrite IH by assumption. reflexivity.
Qed.

Lemma filter_filter_bool (f g : cid -> bool) l :
  List.filter f (List.filter g l) = List.filter (fun x => g x && f x) l.
Proof.
  induction l as [|x l IH]; [reflexivity |]. simpl.
  destruct (g x); simpl; [destruct (f x) |]; rewrite IH; reflexivity.
Qed.

Lemma purge_filter pend : forall l,
  NoDup l ->
  foldl (fun ls c => removeFirst c ls) l pend =
  List.filter (fun x => negb (bool_decide (x ∈ pend))) l.
Proof.
  induction pend as [|y pend IH]; intros l Hnd; simpl.
  - symmetry. apply List.forallb_filter_id, List.forallb_forall.
    intros x _. reflexivity.
  - rewrite IH by (apply removeFirst_NoDup, Hnd).
    rewrite removeFirst_filter by assumption.
    rewrite filter_filter_bool. apply List.filter_ext. intros x.
    destruct (decide (x = y)) as [-> | Hne].
    + rewrite bool_decide_eq_true_2 by reflexivity. simpl.
      rewrite bool_decide_eq_true_2; [reflexivity |].
      apply elem_of_cons. left. reflexivity.
    + rewrite (bool_decide_eq_false_2 (x = y)) by assumption. simpl.
      f_equal. apply bool_decide_ext.
      rewrite elem_of_cons. tauto.
Qed.

(** X4. On a registry without repetitions a pass removes exactly the
    elements queued for removal when it starts and the [once] elements it
    finds newly visible; every other element stays, in the order it had. *)
Theorem check_pass_registry (w : World) (s : State) :
  NoDup (listeners s) ->
  listeners (lazyLoadHandler w s) =
  List.filter (staysRegistered w s) (listeners s).
Proof.
  intros Hnd. rewrite lazyLoadHandler_foldl. simpl.
  rewrite foldl_checkVisible_listeners.
  rewrite purge_filter by assumption.
  destruct (foldl_checkVisible_effects w (listeners s) s Hnd) as [_ Hpend].
  rewrite Hpend. apply List.filter_ext_in. intros x Hin.
  unfold staysRegistered.
  destruct (bool_decide (x ∈ pending s)) eqn:Hp; simpl.
  - apply bool_decide_eq_true in Hp.
    rewrite bool_decide_eq_true_2; [reflexivity |].
    apply elem_of_app. left. assumption.
  - apply bool_decide_eq_false in Hp.
    destruct (once (propsOf w x) && becomesVisible w s x) eqn:Hq; simpl.
    + rewrite bool_decide_eq_true_2; [reflexivity |].
      apply elem_of_app. right. apply list_elem_of_In, List.filter_In. auto.
    + rewrite bool_decide_eq_false_2; [reflexivity |].
      intros Hx. apply elem_of_app in Hx as [Hx | Hx]; [auto |].
      apply list_elem_of_In, List.filter_In in Hx as [_ Hx]. congruence.
Qed.

Lemma check_pass_registry_witness :
  let s := twoMounted (withOnce defaultProps) in
  NoDup (listeners s) /\
  listeners s = [0%nat; 1%nat] /\
  listeners (lazyLoadHandler (twoPage (withOnce defaultProps) 600) s)
    = [0%nat].
Proof.
  cbv zeta.
  assert (Hnd : NoDup (listeners (twoMounted (withOnce defaultProps)))).
  { change (listeners (twoMounted (withOnce defaultProps)))
      with [0%nat; 1%nat].
    apply NoDup_cons. split; [| apply NoDup_singleton].
    intros Hin. apply list_elem_of_singleton in Hin. discriminate. }
  split; [exact Hnd |]. split; [reflexivity |].
  rewrite (check_pass_registry
             (twoPage (withOnce defaultProps) 600)
             (twoMounted (withOnce defaultProps)) Hnd).
  vm_compute. reflexivity.
Defined.

(** ** The shared handler along a run *)

Lemma createHandler_keeps p s h :
  finalLazyLoadHandler s = Some h ->
  finalLazyLoadHandler (createHandler p s) = Some h.
Proof. intros Hh. unfold createHandler. rewrite Hh. exact Hh. Qed.

Lemma createHandler_is_Some p s :
  exists h, finalLazyLoadHandler (createHandler p s) = Some h.
Proof.
  unfold createHandler. destruct (finalLazyLoadHandler s) as [h|] eqn:Hh.
  - exists h. exact Hh.
  - destruct (isDefined (debounce p)); eexists; reflexivity.
Qed.

Lemma componentWillUnmount_finalLazyLoadHandler w this s :
  finalLazyLoadHandler (stateOf (componentWillUnmount w this s)) =
  finalLazyLoadHandler s.
Proof.
  unfold componentWillUnmount. cbv zeta.
  destruct (overflow (propsOf w this));
    [destruct (scrollParent (findDOMNode w this)) as [|parent] |];
    simpl; try reflexivity;
    destruct (bool_decide _); reflexivity.
Qed.

Lemma foldl_checkVisible_finalLazyLoadHandler w l s :
  finalLazyLoadHandler (foldl (fun s c => checkVisible w c s) s l)
  = finalLazyLoadHandler s.
Proof.
  revert s. induction l as [|c l IH]; intros s; simpl; [reflexivity |].
  rewrite IH. apply checkVisible_finalLazyLoadHandler.
Qed.

Lemma lazyLoadHandler_finalLazyLoadHandler w s :
  finalLazyLoadHandler (lazyLoadHandler w s) = finalLazyLoadHandler s.
Proof.
  rewrite lazyLoadHandler_foldl. simpl.
  apply foldl_checkVisible_finalLazyLoadHandler.
Qed.

Lemma step_keeps_handler s we h :
  finalLazyLoadHandler s = Some h ->
  finalLazyLoadHandler (step s we) = Some h.
Proof.
  intros Hh. destruct we as [w [c | c |]];
    [ change (step s (w, Mount c)) with (stateOf (componentDidMount w c s))
    | change (step s (w, Unmount c))
        with (stateOf (componentWillUnmount w c s))
    | change (step s (w, Tick)) with (lazyLoadHandler w s) ].
  - rewrite componentDidMount_finalLazyLoadHandler.
    apply createHandler_keeps, Hh.
  - rewrite componentWillUnmount_finalLazyLoadHandler. exact Hh.
  - rewrite lazyLoadHandler_finalLazyLoadHandler. exact Hh.
Qed.

Lemma run_keeps_handler tr : forall s h,
  finalLazyLoadHandler s = Some h ->
  finalLazyLoadHandler (run tr s) = Some h.
Proof.
  induction tr as [|we tr IH]; intros s h Hh; [exact Hh |].
  change (run (we :: tr) s) with (run tr (step s we)).
  apply IH, step_keeps_handler, Hh.
Qed.

(** X5. The shared handler is the one built by the first mount, for the
    rest of the run: no later mount, whatever its throttle and debounce
    props, no unmount and no pass replaces it. *)
Theorem handler_of_first_mount_is_kept
    (w : World) (c : cid) (tr : list (World * Event)) :
  finalLazyLoadHandler (run ((w, Mount c) :: tr) initialState) =
  finalLazyLoadHandler (stateOf (componentDidMount w c initialState)) /\
  exists h,
    finalLazyLoadHandler (stateOf (componentDidMount w c initialState))
    = Some h.
Proof.
  assert (Hsome : exists h,
    finalLazyLoadHandler (stateOf (componentDidMount w c initialState))
    = Some h).
  { rewrite componentDidMount_finalLazyLoadHandler.
    apply createHandler_is_Some. }
  split; [| exact Hsome]. destruct Hsome as [h Hh].
  change (run ((w, Mount c) :: tr) initialState)
    with (run tr (stateOf (componentDidMount w c initialState))).
  rewrite Hh. apply run_keeps_handler, Hh.
Qed.

(** ** The registry along a run *)





(** ** Containers: the marker and the listener go together *)

Lemma componentDidMount_marker w this s :
  scrollBound s = listenFlag s ->
  scrollBound (stateOf (componentDidMount w this s)) =
  listenFlag (stateOf (componentDidMount w this s)).
Proof.
  intros Heq.
  assert (Hc : scrollBound (createHandler (propsOf w this) s) =
               listenFlag (createHandler (propsOf w this) s)).
  { unfold createHandler. destruct (finalLazyLoadHandler s); [exact Heq |].
    destruct (isDefined (debounce (propsOf w this))); exact Heq. }
  mount_cases w this s;
    rewrite ?checkVisible_scrollBound, ?checkVisible_listenFlag; simpl;
    rewrite ?Hc; reflexivity.
Qed.

Lemma componentWillUnmount_marker w this s :
  scrollBound s = listenFlag s ->
  scrollBound (stateOf (componentWillUnmount w this s)) =
  listenFlag (stateOf (componentWillUnmount w this s)).
Proof.
  intros Heq. unfold componentWillUnmount. cbv zeta.
  destruct (overflow (propsOf w this));
    [destruct (scrollParent (findDOMNode w this)) as [|parent] |];
    simpl; try exact Heq;
    destruct (bool_decide _); simpl; rewrite ?Heq; reflexivity.
Qed.

Lemma run_marker tr : forall s,
  scrollBound s = listenFlag s ->
  scrollBound (run tr s) = listenFlag (run tr s).
Proof.
  induction tr as [|[w e] tr IH]; intros s Heq; [exact Heq |].
  change (run ((w, e) :: tr) s) with (run tr (step s (w, e))).
  apply IH. destruct e as [y | y |];
    [ change (step s (w, Mount y)) with (stateOf (componentDidMount w y s))
    | change (step s (w, Unmount y))
        with (stateOf (componentWillUnmount w y s))
    | change (step s (w, Tick)) with (lazyLoadHandler w s) ].
  - apply componentDidMount_marker, Heq.
  - apply componentWillUnmount_marker, Heq.
  - rewrite lazyLoadHandler_scrollBound, lazyLoadHandler_listenFlag. exact Heq.
Qed.

(** X7. Along every run the containers that carry the marker are exactly
    the containers that carry the scroll listener. So the guard of the mount
    is sound: when an overflow-mode element has mounted inside a scrolling
    ancestor, that ancestor has the listener and the marker, whether this
    mount attached them or found the marker set. *)
Theorem container_marker_tracks_listener
    (tr : list (World * Event)) (w : World) (c : cid) (parent : Container) :
  overflow (propsOf w c) = true ->
  scrollParent (findDOMNode w c) = ParentElement parent ->
  scrollBound (run tr initialState) = listenFlag (run tr initialState) /\
  (containerId parent
     ∈ scrollBound (stateOf (componentDidMount w c (run tr initialState)))) /\
  (containerId parent
     ∈ listenFlag (stateOf (componentDidMount w c (run tr initialState)))).
Proof.
  intros Hov Hparent.
  assert (Heq : scrollBound (run tr initialState)
                = listenFlag (run tr initialState))
    by (apply run_marker; reflexivity).
  split; [exact Heq |].
  set (s := run tr initialState) in *.
  assert (Hflag : containerId parent
                    ∈ listenFlag (stateOf (componentDidMount w c s))).
  { unfold componentDidMount. cbv zeta. rewrite Hov, Hparent.
    destruct (bool_decide
                (containerId parent
                   ∈ listenFlag (createHandler (propsOf w c) s))) eqn:Hk;
      simpl; rewrite checkVisible_listenFlag; simpl.
    - apply bool_decide_eq_true in Hk. exact Hk.
    - apply elem_of_union. left. apply elem_of_singleton. reflexivity. }
  split; [| exact Hflag].
  rewrite (componentDidMount_marker w c s Heq). exact Hflag.
Qed.

Lemma container_marker_tracks_listener_witness :
  let tr := [(boxPage, Mount 0%nat)] in
  overflow (propsOf boxPage 1%nat) = true /\
  scrollParent (findDOMNode boxPage 1%nat) = ParentElement (box 7) /\
  scrollBound (run tr initialState) = listenFlag (run tr initialState) /\
  (7%nat ∈ scrollBound
             (stateOf (componentDidMount boxPage 1%nat (run tr initialState)))) /\
  (7%nat ∈ listenFlag
             (stateOf (componentDidMount boxPage 1%nat (run tr initialState)))).
Proof.
  cbv zeta. split; [reflexivity |]. split; [reflexivity |].
  exact (container_marker_tracks_listener
           [(boxPage, Mount 0%nat)] boxPage 1%nat (box 7) eq_refl eq_refl).
Defined.

(** ** Unmounting *)

(** X8. When [componentWillUnmount] completes on a registry without
    repetitions, the unmounting element is out of the registry and every
    other element is where it was; the queue of pending removals, the flags
    and the redraw signals are untouched. *)
Theorem unmount_removes_exactly_this
    (w : World) (this : cid) (s s' : State) :
  NoDup (listeners s) ->
  componentWillUnmount w this s = Normal s' ->
  listeners s' =
    List.filter (fun x => negb (bool_decide (x = this))) (listeners s) /\
  (this ∉ listeners s') /\
  pending s' = pending s /\
  visible s' = visible s /\
  forceUpdates s' = forceUpdates s.
Proof.
  intros Hnd Hun.
  assert (Hl : listeners s' = removeFirst this (listeners s) /\
               pending s' = pending s /\ visible s' = visible s /\
               forceUpdates s' = forceUpdates s).
  { revert Hun. unfold componentWillUnmount. cbv zeta.
    destruct (overflow (propsOf w this));
      [destruct (scrollParent (findDOMNode w this)) as [|parent];
         [discriminate |] |];
      simpl; destruct (bool_decide _); intros H; injection H as <-;
      simpl; auto. }
  destruct Hl as (Hl & Hp & Hv & Hf). rewrite Hl.
  split; [apply removeFirst_filter, Hnd |].
  split; [apply removeFirst_gone, Hnd | auto].
Qed.

Lemma unmount_removes_exactly_this_witness :
  let s := twoMounted defaultProps in
  let s' := stateOf (componentWillUnmount (twoPage defaultProps 0) 0%nat s) in
  NoDup (listeners s) /\
  componentWillUnmount (twoPage defaultProps 0) 0%nat s = Normal s' /\
  listeners s' = [1%nat] /\
  windowListeners s' = {| onScroll := true; onResize := false |}.
Proof.
  cbv zeta.
  assert (Hnd : NoDup (listeners (twoMounted defaultProps))).
  { change (listeners (twoMounted defaultProps)) with [0%nat; 1%nat].
    apply NoDup_cons. split; [| apply NoDup_singleton].
    intros Hin. apply list_elem_of_singleton in Hin. discriminate. }
  assert (Hun :
    componentWillUnmount (twoPage defaultProps 0) 0%nat
      (twoMounted defaultProps)
    = Normal (stateOf (componentWillUnmount (twoPage defaultProps 0) 0%nat
                         (twoMounted defaultProps)))).
  { unfold componentWillUnmount. cbv zeta. simpl overflow. cbv iota.
    destruct (bool_decide _); reflexivity. }
  split; [exact Hnd |]. split; [exact Hun |]. split.
  - rewrite (proj1 (unmount_removes_exactly_this _ _ _ _ Hnd Hun)).
    vm_compute. reflexivity.
  - vm_compute. reflexivity.
Defined.

(** ** Pending removals that are no longer registered *)

(** X9. The purge tolerates queued elements that have left the registry (an
    element that went visible in the check at mount and was unmounted before
    the next pass): when none of the queued elements is registered, the
    purge leaves the registry as it is and empties the queue. *)
Theorem purge_tolerates_absent_elements (s : State) :
  (forall x, x ∈ pending s -> x ∉ listeners s) ->
  listeners (purgePending s) = listeners s /\
  pending (purgePending s) = [].
Proof.
  intros Habsent. split; [| reflexivity]. simpl.
  revert Habsent. generalize (listeners s) as l.
  induction (pending s) as [|y pend IH]; intros l Habsent; simpl;
    [reflexivity |].
  rewrite removeFirst_absent.
  - apply IH. intros x Hx. apply Habsent, elem_of_cons. right. assumption.
  - apply Habsent, elem_of_cons. left. reflexivity.
Qed.

Lemma purge_tolerates_absent_elements_witness :
  let p := withOnce defaultProps in
  let s := run [(twoPage p 200, Mount 0%nat); (twoPage p 200, Mount 1%nat);
                (twoPage p 200, Unmount 0%nat)] initialState in
  pending s = [0%nat] /\
  listeners s = [1%nat] /\
  listeners (purgePending s) = [1%nat].
Proof.
  cbv zeta. split; [vm_compute; reflexivity |].
  split; [vm_compute; reflexivity |].
  refine (eq_trans (proj1 (purge_tolerates_absent_elements _ _)) _).
  - intros x Hx Hin.
    apply (bool_decide_pack _) in Hx. apply (bool_decide_pack _) in Hin.
    destruct x as [|[|x]]; vm_compute in Hx; vm_compute in Hin;
      first [exact Hx | exact Hin].
  - vm_compute. reflexivity.
Defined.

(** ** When the lifecycle hooks throw *)

(** X10. Each hook throws exactly when [overflow] is set and the scroll
    parent resolved for the instance is the document, which has no
    [getAttribute] and no [removeAttribute]. A mount that throws has at most
    built the shared handler: the instance is not registered, not checked,
    and nothing is attached. An unmount that throws has changed nothing, so
    the instance stays registered. *)
Theorem hooks_throw_on_overflow_without_scrolling_ancestor
    (w : World) (this : cid) (s : State) :
  ((exists s', componentDidMount w this s = Threw s') <->
   overflow (propsOf w this) = true /\
   scrollParent (findDOMNode w this) = ParentDocument) /\
  (forall s', componentDidMount w this s = Threw s' ->
     s' = createHandler (propsOf w this) s /\
     listeners s' = listeners s /\ pending s' = pending s /\
     visible s' = visible s /\ forceUpdates s' = forceUpdates s /\
     windowListeners s' = windowListeners s /\
     scrollBound s' = scrollBound s /\ listenFlag s' = listenFlag s) /\
  ((exists s', componentWillUnmount w this s = Threw s') <->
   overflow (propsOf w this) = true /\
   scrollParent (findDOMNode w this) = ParentDocument) /\
  (forall s', componentWillUnmount w this s = Threw s' -> s' = s).
Proof.
  assert (Hc : forall p,
    listeners (createHandler p s) = listeners s /\
    pending (createHandler p s) = pending s /\
    visible (createHandler p s) = visible s /\
    forceUpdates (createHandler p s) = forceUpdates s /\
    windowListeners (createHandler p s) = windowListeners s /\
    scrollBound (createHandler p s) = scrollBound s /\
    listenFlag (createHandler p s) = listenFlag s).
  { intros p. unfold createHandler.
    destruct (finalLazyLoadHandler s); [auto 8 |].
    destruct (isDefined (debounce p)); auto 8. }
  split; [| split; [| split]].
  - mount_cases w this s; split;
      try (intros [s' H]; discriminate);
      try (intros [H1 H2]; discriminate);
      eauto.
  - intros s'. mount_cases w this s; intros H; try discriminate.
    injection H as <-. split; [reflexivity | apply Hc].
  - unfold componentWillUnmount. cbv zeta.
    destruct (overflow (propsOf w this));
      [destruct (scrollParent (findDOMNode w this)) as [|parent] |];
      simpl; try destruct (bool_decide _); split;
      try (intros [s' H]; discriminate);
      try (intros [H1 H2]; discriminate);
      eauto.
  - intros s'. unfold componentWillUnmount. cbv zeta.
    destruct (overflow (propsOf w this));
      [destruct (scrollParent (findDOMNode w this)) as [|parent] |];
      simpl; try destruct (bool_decide _); intros H; try discriminate.
    injection H as <-. reflexivity.
Qed.

(** ** The window at a mount *)

(** X11. A mount touches the listeners of the window in one case only: a
    document-mode element mounting into an empty registry attaches the
    handler to the scroll event when its [scroll] prop is set and to the
    resize event when its [resize] prop is set. Every other mount leaves the
    window as it is, and no mount detaches anything. *)
Theorem mount_binds_window_only_into_empty_registry
    (w : World) (this : cid) (s : State) :
  windowListeners (stateOf (componentDidMount w this s)) =
    if negb (overflow (propsOf w this)) && bool_decide (listeners s = [])
    then {| onScroll := scroll (propsOf w this) || onScroll (windowListeners s);
            onResize := resize (propsOf w this) || onResize (windowListeners s) |}
    else windowListeners s.
Proof.
  destruct (overflow (propsOf w this)) eqn:Hov; simpl.
  - apply componentDidMount_windowListeners_overflow. assumption.
  - destruct (bool_decide (listeners s = [])) eqn:Hempty.
    + apply bool_decide_eq_true in Hempty.
      unfold componentDidMount. cbv zeta. rewrite Hov.
      rewrite createHandler_listeners, Hempty. simpl.
      rewrite checkVisible_windowListeners. simpl.
      rewrite createHandler_windowListeners.
      destruct (windowListeners s) as [sc rs].
      destruct (scroll (propsOf w this)), (resize (propsOf w this));
        reflexivity.
    + apply bool_decide_eq_false in Hempty.
      apply componentDidMount_windowListeners_nonempty; assumption.
Qed.

(** ** A pass repeated on an unchanged page *)

Lemma foldl_checkVisible_visible_unrendered w l : forall s c,
  findDOMNode w c = None ->
  visible (foldl (fun s x => checkVisible w x s) s l) c = visible s c.
Proof.
  induction l as [|x l IH]; intros s c Hnone; simpl; [reflexivity |].
  rewrite IH by assumption.
  destruct (decide (c = x)) as [-> | Hne].
  - unfold checkVisible. rewrite Hnone. reflexivity.
  - apply checkVisible_visible_other. assumption.
Qed.

Lemma filter_all_false (f : cid -> bool) l :
  (forall x, In x l -> f x = false) -> List.filter f l = [].
Proof.
  induction l as [|x l IH]; intros Hf; [reflexivity |]. simpl.
  rewrite (Hf x) by (left; reflexivity).
  apply IH. intros y Hy. apply Hf. right. assumption.
Qed.

(** After a pass no registered element would get a signal from a check on
    the same page. *)
Lemma becomesVisible_after_pass w s c :
  c ∈ listeners (lazyLoadHandler w s) ->
  becomesVisible w (lazyLoadHandler w s) c = false.
Proof.
  rewrite lazyLoadHandler_foldl. intros Hin. simpl in Hin.
  rewrite foldl_checkVisible_listeners in Hin. apply purge_elem_of in Hin.
  unfold becomesVisible. destruct (findDOMNode w c) as [node|] eqn:Hnode;
    [| reflexivity].
  simpl. rewrite (foldl_checkVisible_visible_checked w _ s c node Hin Hnode).
  destruct (visibleNow w c node); reflexivity.
Qed.

(** X12. A second pass on a page that has not changed does nothing to a
    registry without repetitions: it sends no redraw signal, removes no
    element and changes no flag. *)
Theorem repeated_pass_is_quiet (w : World) (s : State) :
  NoDup (listeners s) ->
  let s1 := lazyLoadHandler w s in
  forceUpdates (lazyLoadHandler w s1) = forceUpdates s1 /\
  listeners (lazyLoadHandler w s1) = listeners s1 /\
  pending (lazyLoadHandler w s1) = pending s1 /\
  (forall c, visible (lazyLoadHandler w s1) c = visible s1 c).
Proof.
  intros Hnd s1.
  assert (Hnd1 : NoDup (listeners s1)).
  { unfold s1. rewrite lazyLoadHandler_foldl. simpl.
    rewrite foldl_checkVisible_listeners. apply purge_NoDup, Hnd. }
  assert (Hquiet : forall x, In x (listeners s1) ->
                             becomesVisible w s1 x = false).
  { intros x Hx. apply becomesVisible_after_pass, list_elem_of_In, Hx. }
  assert (Hsub : forall c, c ∈ listeners s1 -> c ∈ listeners s).
  { intros c. unfold s1. rewrite lazyLoadHandler_foldl. simpl.
    rewrite foldl_checkVisible_listeners. apply purge_elem_of. }
  assert (Hvis1 : forall c node, c ∈ listeners s ->
            findDOMNode w c = Some node -> visible s1 c = visibleNow w c node).
  { intros c node. unfold s1. rewrite lazyLoadHandler_foldl. simpl.
    apply foldl_checkVisible_visible_checked. }
  assert (Hpend1 : pending s1 = []) by reflexivity.
  clearbody s1.
  destruct (foldl_checkVisible_effects w (listeners s1) s1 Hnd1)
    as [Hlog Hpend].
  rewrite (filter_all_false _ _ Hquiet) in Hlog.
  rewrite filter_all_false in Hpend
    by (intros x Hx; rewrite (Hquiet x Hx); apply andb_false_r).
  rewrite app_nil_r in Hlog, Hpend.
  rewrite (lazyLoadHandler_foldl w s1).
  split; [exact Hlog |]. split; [| split].
  - change (listeners (purgePending ?t))
      with (foldl (fun ls c => removeFirst c ls) (listeners t) (pending t)).
    rewrite foldl_checkVisible_listeners, Hpend, Hpend1. reflexivity.
  - rewrite Hpend1. reflexivity.
  - intros c.
    change (visible (purgePending ?t) c) with (visible t c).
    destruct (findDOMNode w c) as [node|] eqn:Hnode.
    + destruct (decide (c ∈ listeners s1)) as [Hin | Hout].
      * rewrite (foldl_checkVisible_visible_checked w _ s1 c node Hin Hnode).
        symmetry. apply Hvis1; [apply Hsub, Hin | exact Hnode].
      * apply foldl_checkVisible_visible_other. assumption.
    + apply foldl_checkVisible_visible_unrendered. assumption.
Qed.

Lemma repeated_pass_is_quiet_witness :
  let w := twoPage (withOnce defaultProps) 200 in
  let s1 := lazyLoadHandler w (twoMounted (withOnce defaultProps)) in
  NoDup (listeners (twoMounted (withOnce defaultProps))) /\
  forceUpdates s1 = [0%nat] /\
  listeners s1 = [1%nat] /\
  forceUpdates (lazyLoadHandler w s1) = [0%nat] /\
  listeners (lazyLoadHandler w s1) = [1%nat].
Proof.
  cbv zeta.
  assert (Hnd : NoDup (listeners (twoMounted (withOnce defaultProps)))).
  { change (listeners (twoMounted (withOnce defaultProps)))
      with [0%nat; 1%nat].
    apply NoDup_cons. split; [| apply NoDup_singleton].
    intros Hin. apply list_elem_of_singleton in Hin. discriminate. }
  destruct (repeated_pass_is_quiet
              (twoPage (withOnce defaultProps) 200)
              (twoMounted (withOnce defaultProps)) Hnd)
    as (Hlog & Hreg & _).
  split; [exact Hnd |].
  split; [vm_compute; reflexivity |]. split; [vm_compute; reflexivity |].
  split.
  - rewrite Hlog. vm_compute. reflexivity.
  - rewrite Hreg. vm_compute. reflexivity.
Defined.

(** ** Elements without [once] *)

Lemma removeFirst_keeps x y l : y <> x -> y ∈ l -> y ∈ removeFirst x l.
Proof.
  intros Hne. induction l as [|z l IH]; intros Hin.
  - apply elem_of_nil in Hin. contradiction.
  - rewrite removeFirst_cons.
    apply elem_of_cons in Hin as [-> | Hin].
    + rewrite bool_decide_eq_false_2 by congruence.
      apply elem_of_cons. left. reflexivity.
    + destruct (bool_decide (z = x)); [assumption |].
      apply elem_of_cons. right. auto.
Qed.

Lemma purge_keeps pend : forall l y,
  y ∉ pend -> y ∈ l -> y ∈ foldl (fun ls c => removeFirst c ls) l pend.
Proof.
  induction pend as [|x pend IH]; intros l y Hy Hin; simpl; [assumption |].
  apply not_elem_of_cons in Hy as [Hne Hy].
  apply IH; [assumption |]. apply removeFirst_keeps; assumption.
Qed.

Lemma checkVisible_pending_not_once w x s c :
  once (propsOf w c) = false ->
  c ∉ pending s -> c ∉ pending (checkVisible w x s).
Proof.
  intros Honce Hc. rewrite checkVisible_pending_becomesVisible.
  intros Hin. apply elem_of_app in Hin as [Hin | Hin]; [auto |].
  destruct (once (propsOf w x) && becomesVisible w s x) eqn:Hq.
  - apply list_elem_of_singleton in Hin. subst x.
    rewrite Honce in Hq. discriminate.
  - apply elem_of_nil in Hin. contradiction.
Qed.

Lemma foldl_checkVisible_pending_not_once w l : forall s c,
  once (propsOf w c) = false ->
  c ∉ pending s ->
  c ∉ pending (foldl (fun s x => checkVisible w x s) s l).
Proof.
  induction l as [|x l IH]; intros s c Honce Hc; simpl; [assumption |].
  apply IH; [assumption |]. apply checkVisible_pending_not_once; assumption.
Qed.

Lemma step_keeps_registered s w e c :
  once (propsOf w c) = false ->
  e <> Unmount c ->
  c ∈ listeners s -> c ∉ pending s ->
  c ∈ listeners (step s (w, e)) /\ c ∉ pending (step s (w, e)).
Proof.
  intros Honce Hne Hin Hp. destruct e as [y | y |];
    [ change (step s (w, Mount y)) with (stateOf (componentDidMount w y s))
    | change (step s (w, Unmount y))
        with (stateOf (componentWillUnmount w y s))
    | change (step s (w, Tick)) with (lazyLoadHandler w s) ].
  - destruct (componentDidMount_shape w y s)
      as (s2 & Hl & Hpend & _ & _ & [H | H]); rewrite H; simpl.
    + rewrite Hl, Hpend. auto.
    + rewrite checkVisible_listeners. simpl. rewrite Hl. split.
      * apply elem_of_app. left. assumption.
      * apply checkVisible_pending_not_once; [assumption |].
        simpl. rewrite Hpend. assumption.
  - destruct (componentWillUnmount_shape w y s) as ([Hl | Hl] & Hpend & _);
      rewrite Hl, Hpend; split; try assumption.
    apply removeFirst_keeps; [| assumption]. congruence.
  - rewrite lazyLoadHandler_foldl. split; [| simpl; apply not_elem_of_nil].
    simpl. rewrite foldl_checkVisible_listeners.
    apply purge_keeps; [| assumption].
    apply foldl_checkVisible_pending_not_once; assumption.
Qed.

(** X13. An element whose [once] prop is false is never taken out of the
    registry by a pass: from a state where it is registered and not queued
    for removal, it stays registered through every run that does not unmount
    it. *)
Theorem element_without_once_stays_registered
    (c : cid) (tr : list (World * Event)) (s : State) :
  (forall we, we ∈ tr -> once (propsOf we.1 c) = false) ->
  (forall we, we ∈ tr -> we.2 <> Unmount c) ->
  c ∈ listeners s -> c ∉ pending s ->
  c ∈ listeners (run tr s) /\ c ∉ pending (run tr s).
Proof.
  revert s. induction tr as [|[w e] tr IH]; intros s Honce Hkeep Hin Hp;
    [auto |].
  change (run ((w, e) :: tr) s) with (run tr (step s (w, e))).
  destruct (step_keeps_registered s w e c) as [Hin' Hp']; try assumption.
  - apply (Honce (w, e)), elem_of_cons. left. reflexivity.
  - apply (Hkeep (w, e)), elem_of_cons. left. reflexivity.
  - apply IH; try assumption.
    + intros we Hwe. apply Honce, elem_of_cons. right. assumption.
    + intros we Hwe. apply Hkeep, elem_of_cons. right. assumption.
Qed.

Lemma element_without_once_stays_registered_witness :
  let s := twoMounted defaultProps in
  let tr := [(twoPage defaultProps 200, Tick);
             (twoPage defaultProps 600, Tick);
             (twoPage defaultProps 600, Unmount 1%nat);
             (twoPage defaultProps 0, Tick)] in
  (0%nat ∈ listeners s) /\
  (0%nat ∉ pending s) /\
  forceUpdates (run tr s) = [0%nat; 1%nat] /\
  (0%nat ∈ listeners (run tr s)) /\
  (0%nat ∉ pending (run tr s)).
Proof.
  cbv zeta.
  assert (Hin : 0%nat ∈ listeners (twoMounted defaultProps)).
  { apply (bool_decide_unpack _). vm_compute. exact I. }
  assert (Hp : 0%nat ∉ pending (twoMounted defaultProps)).
  { intros H. apply (bool_decide_pack _) in H. vm_compute in H. exact H. }
  split; [exact Hin |]. split; [exact Hp |].
  split; [vm_compute; reflexivity |].
  apply (element_without_once_stays_registered 0%nat); try assumption.
  - intros we Hwe.
    repeat (apply elem_of_cons in Hwe as [-> | Hwe]; [reflexivity |]).
    apply elem_of_nil in Hwe. contradiction.
  - intros we Hwe.
    repeat (apply elem_of_cons in Hwe as [-> | Hwe]; [discriminate |]).
    apply elem_of_nil in Hwe. contradiction.
Defined.
